(** * keycloak-vue: the reactive store, its derived getters, the facade
      operations and the plugin, as a shallow embedding.

    Sources embedded here:
    - [src/states.ts]     : [KeycloakState], [createKeycloakState],
                            [createKeycloakGetters];
    - [src/composable.ts] : [updateState], [setupCallbacks], [initKeycloak]
                            and the operations it returns, [useKeycloak];
    - [src/plugin.ts]     : [createKeycloakPlugin];
    - [src/constants.ts]  : [DEFAULT_MIN_VALIDITY].

    The keycloak-js adapter is a black box.  Whatever it decides (the
    fields of its object at a given moment, how a promise it returned
    settles, which event it fires) is an input of the functions below. *)

From Stdlib Require Import ZArith.
From stdpp Require Import base option strings list gmap.

Local Open Scope string_scope.

(** ** JavaScript values and control flow *)

Module Js.

(** An [Error] object, as far as this library looks at it. *)
Record Error := { message : string }.

(** The values that may be thrown or used to reject a promise.  Numbers
    are left out: the library only applies [instanceof Error] and
    [String( )] to thrown values. *)
Inductive value :=
| VUndefined
| VNull
| VBool (b : bool)
| VString (s : string)
| VObject
| VError (e : Error).

(** [String(v)]. *)
Definition String (v : value) : string :=
  match v with
  | VUndefined => "undefined"
  | VNull => "null"
  | VBool true => "true"
  | VBool false => "false"
  | VString s => s
  | VObject => "[object Object]"
  | VError e => "Error: " +:+ message e
  end.

(** [error instanceof Error ? error : new Error(String(error))] *)
Definition toError (v : value) : Error :=
  match v with
  | VError e => e
  | _ => {| message := String v |}
  end.

(** Truthiness of a [string | undefined]: only a non-empty string is
    truthy. *)
Definition truthy (o : option string) : bool :=
  match o with
  | Some s => negb (String.eqb s "")
  | None => false
  end.

(** [a || b] on [string | undefined] operands. *)
Definition or (a b : option string) : option string :=
  if truthy a then a else b.

(** A field that may hold [undefined], [null] or a value. *)
Inductive nullable (A : Type) :=
| Undefined
| Null
| Val (a : A).
Arguments Undefined {A}.
Arguments Null {A}.
Arguments Val {A} a.

(** [x ?? undefined] *)
Definition coalesce_undefined {A} (x : nullable A) : option A :=
  match x with
  | Val a => Some a
  | _ => None
  end.

(** How a synchronous call ends. *)
Inductive completion (R : Type) :=
| Return (r : R)
| Throw (v : value).
Arguments Return {R} r.
Arguments Throw {R} v.

(** How a promise settles. *)
Inductive settled (R : Type) :=
| Resolved (r : R)
| Rejected (v : value).
Arguments Resolved {R} r.
Arguments Rejected {R} v.

End Js.

(** ** [src/types.ts] *)

Module KeycloakRoles.
Record t := { roles : list string }.
End KeycloakRoles.

Module KeycloakTokenParsed.
(** The declared fields, and the claims the getters read through the
    index signature; these are strings in an OpenID Connect token. *)
Record t := {
  exp : option Z;
  iat : option Z;
  nonce : option string;
  sub : option string;
  session_state : option string;
  realm_access : option KeycloakRoles.t;
  resource_access : option (gmap string KeycloakRoles.t);
  preferred_username : option string;
  email : option string;
  name : option string;
  given_name : option string;
  family_name : option string
}.

Definition empty : t :=
  {| exp := None; iat := None; nonce := None; sub := None;
     session_state := None; realm_access := None; resource_access := None;
     preferred_username := None; email := None; name := None;
     given_name := None; family_name := None |}.
End KeycloakTokenParsed.

Module KeycloakProfile.
Record t := {
  id : option string;
  username : option string;
  email : option string;
  firstName : option string;
  lastName : option string;
  enabled : option bool;
  emailVerified : option bool;
  totp : option bool;
  createdTimestamp : option Z
}.

Definition empty : t :=
  {| id := None; username := None; email := None; firstName := None;
     lastName := None; enabled := None; emailVerified := None;
     totp := None; createdTimestamp := None |}.
End KeycloakProfile.

Module KeycloakError.
Record t := { error : string; error_description : string }.
End KeycloakError.

(** [KeycloakConfig | string] *)
Inductive KeycloakConfig :=
| ConfigUrl (json_url : string)
| ConfigObject (url realm clientId : string).

(** The callbacks a caller supplied.  They are the caller's code: what is
    recorded is which ones exist, and the handlers below report which
    ones they forward to. *)
Module KeycloakCallbacks.
Record t := {
  onReady : bool;
  onAuthSuccess : bool;
  onAuthError : bool;
  onAuthRefreshSuccess : bool;
  onAuthRefreshError : bool;
  onAuthLogout : bool;
  onTokenExpired : bool
}.
End KeycloakCallbacks.

(** A forwarded call to one of the caller's callbacks. *)
Inductive CallbackCall :=
| CallOnReady (authenticated : bool)
| CallOnAuthSuccess
| CallOnAuthError (e : KeycloakError.t)
| CallOnAuthRefreshSuccess
| CallOnAuthRefreshError
| CallOnAuthLogout
| CallOnTokenExpired.

(** The data fields of the adapter object ([KeycloakInstance]) that the
    library reads, at one moment. *)
Module KeycloakInstance.
Record t := {
  authenticated : option bool;
  token : option string;
  tokenParsed : option KeycloakTokenParsed.t;
  idToken : option string;
  idTokenParsed : option KeycloakTokenParsed.t;
  refreshToken : option string;
  refreshTokenParsed : option KeycloakTokenParsed.t;
  subject : option string;
  realmAccess : option KeycloakRoles.t;
  resourceAccess : option (gmap string KeycloakRoles.t);
  timeSkew : Js.nullable Z;
  responseMode : option string;
  flow : option string;
  responseType : option string
}.
End KeycloakInstance.

(** The adapter object held in [state.instance]: a reference.  It is
    identified by what it was built from, and it carries the callbacks
    that the handlers installed by [setupCallbacks] close over.  Its data
    fields change under the adapter's control and are passed, as a
    [KeycloakInstance.t], to whatever reads them. *)
Module InstanceRef.
Record t := {
  config : KeycloakConfig;
  callbacks : option KeycloakCallbacks.t
}.
End InstanceRef.

(** ** [src/states.ts] *)

Module KeycloakState.
Record t := {
  instance : option InstanceRef.t;
  isAuthenticated : bool;
  isReady : bool;
  token : option string;
  tokenParsed : option KeycloakTokenParsed.t;
  idToken : option string;
  idTokenParsed : option KeycloakTokenParsed.t;
  refreshToken : option string;
  refreshTokenParsed : option KeycloakTokenParsed.t;
  subject : option string;
  profile : option KeycloakProfile.t;
  realmAccess : option KeycloakRoles.t;
  resourceAccess : option (gmap string KeycloakRoles.t);
  timeSkew : option Z;
  responseMode : option string;
  flow : option string;
  adapter : option string;
  responseType : option string;
  isLoading : bool;
  error : option Js.Error
}.

(** Single-field writes ([state.x.value = v]). *)
Definition set_instance (v : option InstanceRef.t) (s : t) : t :=
  {| instance := v; isAuthenticated := isAuthenticated s;
     isReady := isReady s; token := token s; tokenParsed := tokenParsed s;
     idToken := idToken s; idTokenParsed := idTokenParsed s;
     refreshToken := refreshToken s;
     refreshTokenParsed := refreshTokenParsed s; subject := subject s;
     profile := profile s; realmAccess := realmAccess s;
     resourceAccess := resourceAccess s; timeSkew := timeSkew s;
     responseMode := responseMode s; flow := flow s; adapter := adapter s;
     responseType := responseType s; isLoading := isLoading s;
     error := error s |}.

Definition set_isAuthenticated (v : bool) (s : t) : t :=
  {| instance := instance s; isAuthenticated := v;
     isReady := isReady s; token := token s; tokenParsed := tokenParsed s;
     idToken := idToken s; idTokenParsed := idTokenParsed s;
     refreshToken := refreshToken s;
     refreshTokenParsed := refreshTokenParsed s; subject := subject s;
     profile := profile s; realmAccess := realmAccess s;
     resourceAccess := resourceAccess s; timeSkew := timeSkew s;
     responseMode := responseMode s; flow := flow s; adapter := adapter s;
     responseType := responseType s; isLoading := isLoading s;
     error := error s |}.

Definition set_isReady (v : bool) (s : t) : t :=
  {| instance := instance s; isAuthenticated := isAuthenticated s;
     isReady := v; token := token s; tokenParsed := tokenParsed s;
     idToken := idToken s; idTokenParsed := idTokenParsed s;
     refreshToken := refreshToken s;
     refreshTokenParsed := refreshTokenParsed s; subject := subject s;
     profile := profile s; realmAccess := realmAccess s;
     resourceAccess := resourceAccess s; timeSkew := timeSkew s;
     responseMode := responseMode s; flow := flow s; adapter := adapter s;
     responseType := responseType s; isLoading := isLoading s;
     error := error s |}.

Definition set_profile (v : option KeycloakProfile.t) (s : t) : t :=
  {| instance := instance s; isAuthenticated := isAuthenticated s;
     isReady := isReady s; token := token s; tokenParsed := tokenParsed s;
     idToken := idToken s; idTokenParsed := idTokenParsed s;
     refreshToken := refreshToken s;
     refreshTokenParsed := refreshTokenParsed s; subject := subject s;
     profile := v; realmAccess := realmAccess s;
     resourceAccess := resourceAccess s; timeSkew := timeSkew s;
     responseMode := responseMode s; flow := flow s; adapter := adapter s;
     responseType := responseType s; isLoading := isLoading s;
     error := error s |}.

Definition set_isLoading (v : bool) (s : t) : t :=
  {| instance := instance s; isAuthenticated := isAuthenticated s;
     isReady := isReady s; token := token s; tokenParsed := tokenParsed s;
     idToken := idToken s; idTokenParsed := idTokenParsed s;
     refreshToken := refreshToken s;
     refreshTokenParsed := refreshTokenParsed s; subject := subject s;
     profile := profile s; realmAccess := realmAccess s;
     resourceAccess := resourceAccess s; timeSkew := timeSkew s;
     responseMode := responseMode s; flow := flow s; adapter := adapter s;
     responseType := responseType s; isLoading := v;
     error := error s |}.

Definition set_error (v : option Js.Error) (s : t) : t :=
  {| instance := instance s; isAuthenticated := isAuthenticated s;
     isReady := isReady s; token := token s; tokenParsed := tokenParsed s;
     idToken := idToken s; idTokenParsed := idTokenParsed s;
     refreshToken := refreshToken s;
     refreshTokenParsed := refreshTokenParsed s; subject := subject s;
     profile := profile s; realmAccess := realmAccess s;
     resourceAccess := resourceAccess s; timeSkew := timeSkew s;
     responseMode := responseMode s; flow := flow s; adapter := adapter s;
     responseType := responseType s; isLoading := isLoading s;
     error := v |}.
End KeycloakState.

(** [createKeycloakState()]: [ref(false)], [ref()] and [ref(null)]. *)
Definition createKeycloakState : KeycloakState.t :=
  {| KeycloakState.instance := None;
     KeycloakState.isAuthenticated := false;
     KeycloakState.isReady := false;
     KeycloakState.token := None;
     KeycloakState.tokenParsed := None;
     KeycloakState.idToken := None;
     KeycloakState.idTokenParsed := None;
     KeycloakState.refreshToken := None;
     KeycloakState.refreshTokenParsed := None;
     KeycloakState.subject := None;
     KeycloakState.profile := None;
     KeycloakState.realmAccess := None;
     KeycloakState.resourceAccess := None;
     KeycloakState.timeSkew := None;
     KeycloakState.responseMode := None;
     KeycloakState.flow := None;
     KeycloakState.adapter := None;
     KeycloakState.responseType := None;
     KeycloakState.isLoading := false;
     KeycloakState.error := None |}.

(** [createKeycloakGetters(state)]: each getter is a function of the
    current store.  The three that ask the adapter take its answer. *)
Module Getters.

Definition isTokenExpired (adapter_isTokenExpired : Z -> bool)
    (state : KeycloakState.t) : bool :=
  match KeycloakState.instance state, KeycloakState.tokenParsed state with
  | Some _, Some _ => adapter_isTokenExpired 0%Z
  | _, _ => true
  end.

Definition username (state : KeycloakState.t) : option string :=
  Js.or (KeycloakState.tokenParsed state ≫= KeycloakTokenParsed.preferred_username)
        (KeycloakState.profile state ≫= KeycloakProfile.username).

Definition email (state : KeycloakState.t) : option string :=
  Js.or (KeycloakState.tokenParsed state ≫= KeycloakTokenParsed.email)
        (KeycloakState.profile state ≫= KeycloakProfile.email).

Definition fullName (state : KeycloakState.t) : option string :=
  let first := KeycloakState.profile state ≫= KeycloakProfile.firstName in
  let last := KeycloakState.profile state ≫= KeycloakProfile.lastName in
  if Js.truthy first && Js.truthy last then
    match first, last with
    | Some f, Some l => Some (f +:+ " " +:+ l)
    | _, _ => None
    end
  else KeycloakState.tokenParsed state ≫= KeycloakTokenParsed.name.

Definition firstName (state : KeycloakState.t) : option string :=
  Js.or (KeycloakState.profile state ≫= KeycloakProfile.firstName)
        (KeycloakState.tokenParsed state ≫= KeycloakTokenParsed.given_name).

Definition lastName (state : KeycloakState.t) : option string :=
  Js.or (KeycloakState.profile state ≫= KeycloakProfile.lastName)
        (KeycloakState.tokenParsed state ≫= KeycloakTokenParsed.family_name).

Definition hasRealmRole (adapter_hasRealmRole : string -> bool)
    (state : KeycloakState.t) (role : string) : bool :=
  match KeycloakState.instance state with
  | None => false
  | Some _ => adapter_hasRealmRole role
  end.

Definition hasResourceRole
    (adapter_hasResourceRole : string -> option string -> bool)
    (state : KeycloakState.t) (role : string) (resource : option string)
    : bool :=
  match KeycloakState.instance state with
  | None => false
  | Some _ => adapter_hasResourceRole role resource
  end.

Definition realmRoles (state : KeycloakState.t) : list string :=
  match KeycloakState.realmAccess state with
  | Some r => KeycloakRoles.roles r
  | None => []
  end.

Definition resourceRoles (state : KeycloakState.t) (resource : string)
    : list string :=
  match KeycloakState.resourceAccess state ≫= (fun m => m !! resource) with
  | Some r => KeycloakRoles.roles r
  | None => []
  end.

End Getters.

(** ** [src/constants.ts] *)

(** Default minimum token validity in seconds. *)
Definition DEFAULT_MIN_VALIDITY : Z := 5.

(** [KEYCLOAK_INJECTION_KEY = Symbol('keycloak')]: a key equal to no other
    key an application can provide under. *)
Inductive InjectionKey :=
| KEYCLOAK_INJECTION_KEY
| OtherKey (name : string).

#[global] Instance InjectionKey_eq_dec : EqDecision InjectionKey.
Proof. solve_decision. Defined.

#[global] Instance InjectionKey_countable : Countable InjectionKey.
Proof.
  refine (inj_countable'
            (fun k => match k with
                      | KEYCLOAK_INJECTION_KEY => None
                      | OtherKey n => Some n
                      end)
            (fun o => match o with
                      | None => KEYCLOAK_INJECTION_KEY
                      | Some n => OtherKey n
                      end) _).
  intros []; reflexivity.
Defined.

(** ** [src/composable.ts] *)

(** An options object whose fields are all optional and which is only
    handed on to the adapter: its present fields, by name. *)
Abbreviation Options := (gmap string Js.value).

(** The adapter methods the facade calls. *)
Inductive AdapterCall :=
| AdapterInit (options : Options)
| AdapterLogin (options : option Options)
| AdapterLogout (options : option Options)
| AdapterRegister (options : option Options)
| AdapterAccountManagement
| AdapterUpdateToken (minValidity : Z)
| AdapterLoadUserProfile
| AdapterCreateLoginUrl (options : option Options)
| AdapterCreateLogoutUrl (options : option Options)
| AdapterCreateRegisterUrl (options : option Options)
| AdapterCreateAccountUrl (options : option Options).

(** An [async] function runs synchronously up to its first [await] and is
    resumed when the awaited promise settles.  [started R] is what the
    synchronous part leaves behind: either the adapter call whose promise
    is awaited, or a promise that is settled already. *)
Inductive started (R : Type) :=
| Awaits (call : AdapterCall)
| Settles (r : Js.settled R).
Arguments Awaits {R} call.
Arguments Settles {R} r.

(** The events of the adapter, with what it passes to the handler. *)
Inductive AdapterEvent :=
| Ready (authenticated : option bool)
| AuthSuccess
| AuthError (error : option KeycloakError.t)
| AuthRefreshSuccess
| AuthRefreshError
| AuthLogout
| TokenExpired.

(** The facade object.  Its refs, getters and methods all close over the
    one module-level store, so every facade is the same view of it. *)
Inductive UseKeycloakReturn := Facade.

Module Composable.
Import KeycloakState.

(** [updateState(state, instance)] *)
Definition updateState (state : KeycloakState.t)
    (instance : KeycloakInstance.t) : KeycloakState.t :=
  {| KeycloakState.instance := KeycloakState.instance state;
     isAuthenticated :=
       match KeycloakInstance.authenticated instance with
       | Some true => true
       | _ => false
       end;
     isReady := isReady state;
     token := KeycloakInstance.token instance;
     tokenParsed := KeycloakInstance.tokenParsed instance;
     idToken := KeycloakInstance.idToken instance;
     idTokenParsed := KeycloakInstance.idTokenParsed instance;
     refreshToken := KeycloakInstance.refreshToken instance;
     refreshTokenParsed := KeycloakInstance.refreshTokenParsed instance;
     subject := KeycloakInstance.subject instance;
     profile := profile state;
     realmAccess := KeycloakInstance.realmAccess instance;
     resourceAccess := KeycloakInstance.resourceAccess instance;
     timeSkew := Js.coalesce_undefined (KeycloakInstance.timeSkew instance);
     responseMode := KeycloakInstance.responseMode instance;
     flow := KeycloakInstance.flow instance;
     adapter := adapter state;
     responseType := KeycloakInstance.responseType instance;
     isLoading := isLoading state;
     error := error state |}.

(** [callbacks?.f]: is the callback there. *)
Definition provided (callbacks : option KeycloakCallbacks.t)
    (f : KeycloakCallbacks.t -> bool) : bool :=
  match callbacks with
  | Some c => f c
  | None => false
  end.

(** [callbacks?.f?.()] for a callback without arguments. *)
Definition forward (callbacks : option KeycloakCallbacks.t)
    (f : KeycloakCallbacks.t -> bool) (call : CallbackCall)
    : list CallbackCall :=
  if provided callbacks f then [call] else [].

(** [error?.error_description || error?.error || 'Authentication error'] *)
Definition authErrorMessage (error : option KeycloakError.t) : string :=
  match Js.or (Js.or (KeycloakError.error_description <$> error)
                     (KeycloakError.error <$> error))
              (Some "Authentication error") with
  | Some m => m
  | None => "Authentication error"
  end.

(** The handlers installed by [setupCallbacks(instance, state, callbacks)].
    [instance] is the adapter object's fields when the handler runs.
    Each returns the store and the callbacks it forwarded to. *)
Section setupCallbacks.
Variable callbacks : option KeycloakCallbacks.t.

Definition onReady (instance : KeycloakInstance.t)
    (authenticated : option bool) (state : KeycloakState.t)
    : KeycloakState.t * list CallbackCall :=
  let state := set_isReady true state in
  let state := set_isLoading false state in
  let state := updateState state instance in
  (state,
   match authenticated with
   | Some a =>
       if provided callbacks KeycloakCallbacks.onReady
       then [CallOnReady a] else []
   | None => []
   end).

Definition onAuthSuccess (instance : KeycloakInstance.t)
    (state : KeycloakState.t) : KeycloakState.t * list CallbackCall :=
  (updateState state instance,
   forward callbacks KeycloakCallbacks.onAuthSuccess CallOnAuthSuccess).

Definition onAuthError (error : option KeycloakError.t)
    (state : KeycloakState.t) : KeycloakState.t * list CallbackCall :=
  let state :=
    set_error (Some {| Js.message := authErrorMessage error |}) state in
  let state := set_isLoading false state in
  (state,
   match error with
   | Some e =>
       if provided callbacks KeycloakCallbacks.onAuthError
       then [CallOnAuthError e] else []
   | None => []
   end).

Definition onAuthRefreshSuccess (instance : KeycloakInstance.t)
    (state : KeycloakState.t) : KeycloakState.t * list CallbackCall :=
  (updateState state instance,
   forward callbacks KeycloakCallbacks.onAuthRefreshSuccess
           CallOnAuthRefreshSuccess).

Definition onAuthRefreshError (state : KeycloakState.t)
    : KeycloakState.t * list CallbackCall :=
  (set_isAuthenticated false state,
   forward callbacks KeycloakCallbacks.onAuthRefreshError
           CallOnAuthRefreshError).

Definition onAuthLogout (state : KeycloakState.t)
    : KeycloakState.t * list CallbackCall :=
  let state := set_isAuthenticated false state in
  let state := set_profile None state in
  (state,
   forward callbacks KeycloakCallbacks.onAuthLogout CallOnAuthLogout).

Definition onTokenExpired (state : KeycloakState.t)
    : KeycloakState.t * list CallbackCall :=
  (state,
   forward callbacks KeycloakCallbacks.onTokenExpired CallOnTokenExpired).

(** The adapter fires [event] while its fields are [instance]. *)
Definition handle (event : AdapterEvent) (instance : KeycloakInstance.t)
    (state : KeycloakState.t) : KeycloakState.t * list CallbackCall :=
  match event with
  | Ready authenticated => onReady instance authenticated state
  | AuthSuccess => onAuthSuccess instance state
  | AuthError error => onAuthError error state
  | AuthRefreshSuccess => onAuthRefreshSuccess instance state
  | AuthRefreshError => onAuthRefreshError state
  | AuthLogout => onAuthLogout state
  | TokenExpired => onTokenExpired state
  end.
End setupCallbacks.

(** An event reaches the store through the handlers of the adapter
    object the store holds; they close over the callbacks given when
    that object was created. *)
Definition fire (event : AdapterEvent) (instance : KeycloakInstance.t)
    (state : KeycloakState.t) : KeycloakState.t * list CallbackCall :=
  match KeycloakState.instance state with
  | Some ref => handle (InstanceRef.callbacks ref) event instance state
  | None => (state, [])
  end.

(** [new Error('Keycloak instance not initialized')] *)
Definition notInitialized : Js.value :=
  Js.VError {| Js.message := "Keycloak instance not initialized" |}.

(** [initKeycloak(config, callbacks)] on the module-level [globalState];
    the store returned is the one [globalState] holds from then on.
    This is [initKeycloak] when [new Keycloak(config)] returns or is not
    called; [initKeycloak_constructing] below has the path on which it
    throws. *)
Definition initKeycloak (globalState : option KeycloakState.t)
    (config : KeycloakConfig) (callbacks : option KeycloakCallbacks.t)
    : KeycloakState.t * UseKeycloakReturn :=
  let state :=
    match globalState with
    | Some s => s
    | None => createKeycloakState
    end in
  let state :=
    match KeycloakState.instance state with
    | Some _ => state
    | None =>
        set_instance
          (Some {| InstanceRef.config := config;
                   InstanceRef.callbacks := callbacks |}) state
    end in
  (state, Facade).

(** [initKeycloak(config, callbacks)] with the adapter's constructor as
    the black box it is: [constructed] is how [new Keycloak(config)]
    ends, should it be called.  [globalState] is assigned before the
    adapter object is built and nothing guards the constructor, so when
    it throws the store stays without an adapter object and the throw
    leaves [initKeycloak]. *)
Definition initKeycloak_constructing (constructed : Js.completion unit)
    (globalState : option KeycloakState.t)
    (config : KeycloakConfig) (callbacks : option KeycloakCallbacks.t)
    : KeycloakState.t * Js.completion UseKeycloakReturn :=
  let state :=
    match globalState with
    | Some s => s
    | None => createKeycloakState
    end in
  match KeycloakState.instance state with
  | Some _ => (state, Js.Return Facade)
  | None =>
      match constructed with
      | Js.Return _ =>
          (set_instance
             (Some {| InstanceRef.config := config;
                      InstanceRef.callbacks := callbacks |}) state,
           Js.Return Facade)
      | Js.Throw v => (state, Js.Throw v)
      end
  end.

(** *** The operations returned by [initKeycloak] *)

(** [init(options)], up to [await state.instance.value.init(options || {})]. *)
Definition init_start (options : option Options) (state : KeycloakState.t)
    : KeycloakState.t * started bool :=
  match KeycloakState.instance state with
  | None => (state, Settles (Js.Rejected notInitialized))
  | Some _ =>
      let state := set_isLoading true state in
      let state := set_error None state in
      (state, Awaits (AdapterInit (default ∅ options)))
  end.

(** [init], from the moment the adapter's promise settles with [r];
    [instance] is the adapter object's fields at that moment.  A
    synchronous throw of the adapter method lands in the same [catch]. *)
Definition init_resume (instance : KeycloakInstance.t)
    (r : Js.settled bool) (state : KeycloakState.t)
    : KeycloakState.t * Js.settled bool :=
  match r with
  | Js.Resolved authenticated =>
      let state := updateState state instance in
      (set_isLoading false state, Js.Resolved authenticated)
  | Js.Rejected error =>
      let state := set_error (Some (Js.toError error)) state in
      (set_isLoading false state, Js.Rejected error)
  end.

(** Operations that only hand over to the adapter: [login], [logout],
    [register], [accountManagement] and the four URL builders. *)
Definition delegate_start {R} (call : AdapterCall)
    (state : KeycloakState.t) : KeycloakState.t * started R :=
  match KeycloakState.instance state with
  | None => (state, Settles (Js.Rejected notInitialized))
  | Some _ => (state, Awaits call)
  end.

Definition delegate_resume {R} (r : Js.settled R)
    (state : KeycloakState.t) : KeycloakState.t * Js.settled R :=
  (state, r).

Definition login_start (options : option Options) :=
  delegate_start (R := unit) (AdapterLogin options).
Definition logout_start (options : option Options) :=
  delegate_start (R := unit) (AdapterLogout options).
Definition register_start (options : option Options) :=
  delegate_start (R := unit) (AdapterRegister options).
Definition accountManagement_start (_options : option Options) :=
  delegate_start (R := unit) AdapterAccountManagement.
Definition createLoginUrl_start (options : option Options) :=
  delegate_start (R := string) (AdapterCreateLoginUrl options).
Definition createLogoutUrl_start (options : option Options) :=
  delegate_start (R := string) (AdapterCreateLogoutUrl options).
Definition createRegisterUrl_start (options : option Options) :=
  delegate_start (R := string) (AdapterCreateRegisterUrl options).
Definition createAccountUrl_start (options : option Options) :=
  delegate_start (R := string) (AdapterCreateAccountUrl options).

(** [updateToken(minValidity = DEFAULT_MIN_VALIDITY)] *)
Definition updateToken_start (minValidity : option Z)
    (state : KeycloakState.t) : KeycloakState.t * started bool :=
  match KeycloakState.instance state with
  | None => (state, Settles (Js.Rejected notInitialized))
  | Some _ =>
      (state,
       Awaits (AdapterUpdateToken (default DEFAULT_MIN_VALIDITY minValidity)))
  end.

Definition updateToken_resume (instance : KeycloakInstance.t)
    (r : Js.settled bool) (state : KeycloakState.t)
    : KeycloakState.t * Js.settled bool :=
  match r with
  | Js.Resolved refreshed =>
      let state := if refreshed then updateState state instance else state in
      (state, Js.Resolved refreshed)
  | Js.Rejected error =>
      (set_error (Some (Js.toError error)) state, Js.Rejected error)
  end.

(** [loadUserProfile()] *)
Definition loadUserProfile_start (state : KeycloakState.t)
    : KeycloakState.t * started KeycloakProfile.t :=
  match KeycloakState.instance state with
  | None => (state, Settles (Js.Rejected notInitialized))
  | Some _ => (state, Awaits AdapterLoadUserProfile)
  end.

Definition loadUserProfile_resume (r : Js.settled KeycloakProfile.t)
    (state : KeycloakState.t)
    : KeycloakState.t * Js.settled KeycloakProfile.t :=
  match r with
  | Js.Resolved profile =>
      (set_profile (Some profile) state, Js.Resolved profile)
  | Js.Rejected error =>
      (set_error (Some (Js.toError error)) state, Js.Rejected error)
  end.

(** [clearToken()]; [instance] is the adapter object's fields once its
    own [clearToken] has returned. *)
Definition clearToken (instance : KeycloakInstance.t)
    (state : KeycloakState.t) : KeycloakState.t * Js.completion unit :=
  match KeycloakState.instance state with
  | None => (state, Js.Throw notInitialized)
  | Some _ => (updateState state instance, Js.Return tt)
  end.

(** [useKeycloak()]: [inject] finds what was provided under the key, or
    [undefined]. *)
Definition inject (provides : gmap InjectionKey UseKeycloakReturn)
    (key : InjectionKey) : option UseKeycloakReturn :=
  provides !! key.

Definition useKeycloak (provides : gmap InjectionKey UseKeycloakReturn)
    : Js.completion UseKeycloakReturn :=
  match inject provides KEYCLOAK_INJECTION_KEY with
  | Some keycloak => Js.Return keycloak
  | None =>
      Js.Throw
        (Js.VError
           {| Js.message :=
                "Keycloak not initialized. Make sure to install the plugin with app.use(createKeycloakPlugin(config))" |})
  end.

End Composable.

(** ** [src/plugin.ts] *)

Module KeycloakPluginOptions.
Record t := {
  config : KeycloakConfig;
  initOptions : option Options;
  autoInit : option bool;
  callbacks : option KeycloakCallbacks.t
}.
End KeycloakPluginOptions.

(** The part of a Vue [App] the plugin writes to. *)
Module App.
Record t := {
  provides : gmap InjectionKey UseKeycloakReturn;
  globalProperties : gmap string UseKeycloakReturn
}.

Definition empty : t := {| provides := ∅; globalProperties := ∅ |}.
End App.

(** A [console.error(label, value)] line. *)
Inductive ConsoleLine := ConsoleError (label : string) (v : Js.value).

Module Plugin.
Import Composable.

(** [options.autoInit !== false] *)
Definition autoInitRequested (autoInit : option bool) : bool :=
  match autoInit with
  | Some false => false
  | _ => true
  end.

(** What [install] leaves behind. *)
Record installed := {
  completion : Js.completion unit;
  app : App.t;
  globalState : KeycloakState.t;
  (** the promise of the automatic [init], when [init] was called *)
  pendingInit : option (started bool)
}.

(** [createKeycloakPlugin(options).install(app)] when
    [new Keycloak(config)] returns or is not called;
    [install_constructing] below has the path on which it throws. *)
Definition install (options : KeycloakPluginOptions.t) (app : App.t)
    (globalState : option KeycloakState.t) : installed :=
  let '(state, keycloak) :=
    initKeycloak globalState (KeycloakPluginOptions.config options)
                 (KeycloakPluginOptions.callbacks options) in
  let app :=
    {| App.provides :=
         <[KEYCLOAK_INJECTION_KEY := keycloak]> (App.provides app);
       App.globalProperties := App.globalProperties app |} in
  let '(state, pending) :=
    if autoInitRequested (KeycloakPluginOptions.autoInit options) then
      let '(state, p) :=
        init_start (KeycloakPluginOptions.initOptions options) state in
      (state, Some p)
    else (state, None) in
  let app :=
    {| App.provides := App.provides app;
       App.globalProperties :=
         <["$keycloak" := keycloak]> (App.globalProperties app) |} in
  {| completion := Js.Return tt; app := app; globalState := state;
     pendingInit := pending |}.

(** [createKeycloakPlugin(options).install(app)] with the adapter's
    constructor as the black box it is ([constructed], as for
    [initKeycloak_constructing]).  [install] has no [try]: a throw of
    [initKeycloak] leaves it before anything is provided.  The call of
    [init] returns a promise and cannot throw. *)
Definition install_constructing (constructed : Js.completion unit)
    (options : KeycloakPluginOptions.t) (app : App.t)
    (globalState : option KeycloakState.t) : installed :=
  match
    initKeycloak_constructing constructed globalState
      (KeycloakPluginOptions.config options)
      (KeycloakPluginOptions.callbacks options)
  with
  | (state, Js.Throw v) =>
      {| completion := Js.Throw v; app := app; globalState := state;
         pendingInit := None |}
  | (state, Js.Return keycloak) =>
      let app :=
        {| App.provides :=
             <[KEYCLOAK_INJECTION_KEY := keycloak]> (App.provides app);
           App.globalProperties := App.globalProperties app |} in
      let '(state, pending) :=
        if autoInitRequested (KeycloakPluginOptions.autoInit options) then
          let '(state, p) :=
            init_start (KeycloakPluginOptions.initOptions options) state in
          (state, Some p)
        else (state, None) in
      let app :=
        {| App.provides := App.provides app;
           App.globalProperties :=
             <["$keycloak" := keycloak]> (App.globalProperties app) |} in
      {| completion := Js.Return tt; app := app; globalState := state;
         pendingInit := pending |}
  end.

(** [.catch((error) => { console.error('Failed to initialize Keycloak:',
    error) })]: the promise [catch] returns, and the console after it. *)
Definition catchAndLog {R} (r : Js.settled R) (console : list ConsoleLine)
    : Js.settled (option R) * list ConsoleLine :=
  match r with
  | Js.Resolved v => (Js.Resolved (Some v), console)
  | Js.Rejected error =>
      (Js.Resolved None,
       (console ++ [ConsoleError "Failed to initialize Keycloak:" error])%list)
  end.

(** The automatic [init] runs to its end: [pending] is what [install]
    left, [r] is how the adapter's [init] promise settles (if it was
    awaited) and [instance] the adapter's fields then. *)
Definition settleInit (pending : started bool)
    (instance : KeycloakInstance.t) (r : Js.settled bool)
    (state : KeycloakState.t) (console : list ConsoleLine)
    : KeycloakState.t * Js.settled (option bool) * list ConsoleLine :=
  let '(state, result) :=
    match pending with
    | Awaits _ => init_resume instance r state
    | Settles result => (state, result)
    end in
  let '(caught, console) := catchAndLog result console in
  (state, caught, console).

End Plugin.

(** ** The store over time

    Everything that can write to the store of one facade: the adapter's
    events, and the synchronous part and the resumption of each operation,
    in any order.  An event the adapter fires from inside one of its own
    methods is a [Fires] of its own.  [Delegates] stands for both halves of
    an operation that only hands over to the adapter. *)

Inductive Action :=
| Fires (event : AdapterEvent) (instance : KeycloakInstance.t)
| InitKeycloak (config : KeycloakConfig)
               (callbacks : option KeycloakCallbacks.t)
| InitStarts (options : option Options)
| InitSettles (instance : KeycloakInstance.t) (r : Js.settled bool)
| UpdateTokenStarts (minValidity : option Z)
| UpdateTokenSettles (instance : KeycloakInstance.t) (r : Js.settled bool)
| LoadUserProfileStarts
| LoadUserProfileSettles (r : Js.settled KeycloakProfile.t)
| ClearToken (instance : KeycloakInstance.t)
| Delegates (call : AdapterCall).

Definition step (state : KeycloakState.t) (a : Action) : KeycloakState.t :=
  match a with
  | Fires event instance => (Composable.fire event instance state).1
  | InitKeycloak config callbacks =>
      (Composable.initKeycloak (Some state) config callbacks).1
  | InitStarts options => (Composable.init_start options state).1
  | InitSettles instance r => (Composable.init_resume instance r state).1
  | UpdateTokenStarts minValidity =>
      (Composable.updateToken_start minValidity state).1
  | UpdateTokenSettles instance r =>
      (Composable.updateToken_resume instance r state).1
  | LoadUserProfileStarts => (Composable.loadUserProfile_start state).1
  | LoadUserProfileSettles r =>
      (Composable.loadUserProfile_resume r state).1
  | ClearToken instance => (Composable.clearToken instance state).1
  | Delegates call => (Composable.delegate_start (R := unit) call state).1
  end.

Definition run (state : KeycloakState.t) (actions : list Action)
    : KeycloakState.t :=
  fold_left step actions state.

(** A whole call of an [async] operation: its synchronous part, then
    whatever else writes to the store while the adapter works ([during]),
    then its resumption. *)
Definition whole {R}
    (start : KeycloakState.t -> KeycloakState.t * started R)
    (during : list Action)
    (resume : KeycloakState.t -> KeycloakState.t * Js.settled R)
    (state : KeycloakState.t) : KeycloakState.t * Js.settled R :=
  match start state with
  | (state, Awaits _) => resume (run state during)
  | (state, Settles r) => (state, r)
  end.

Definition init (options : option Options) (during : list Action)
    (instance : KeycloakInstance.t) (r : Js.settled bool) :=
  whole (Composable.init_start options) during
        (Composable.init_resume instance r).

Definition updateToken (minValidity : option Z) (during : list Action)
    (instance : KeycloakInstance.t) (r : Js.settled bool) :=
  whole (Composable.updateToken_start minValidity) during
        (Composable.updateToken_resume instance r).

Definition loadUserProfile (during : list Action)
    (r : Js.settled KeycloakProfile.t) :=
  whole Composable.loadUserProfile_start during
        (Composable.loadUserProfile_resume r).

(** The store of a facade when [initKeycloak] has first returned. *)
Definition fresh (config : KeycloakConfig)
    (callbacks : option KeycloakCallbacks.t) : KeycloakState.t :=
  (Composable.initKeycloak None config callbacks).1.

(** ** Properties used in the statements *)

(** The store mirrors the adapter's fields, as [updateState] leaves it. *)
Definition synced (state : KeycloakState.t) (instance : KeycloakInstance.t)
    : Prop :=
  KeycloakState.isAuthenticated state
    = bool_decide (KeycloakInstance.authenticated instance = Some true)
  ∧ KeycloakState.token state = KeycloakInstance.token instance
  ∧ KeycloakState.tokenParsed state = KeycloakInstance.tokenParsed instance
  ∧ KeycloakState.idToken state = KeycloakInstance.idToken instance
  ∧ KeycloakState.idTokenParsed state
    = KeycloakInstance.idTokenParsed instance
  ∧ KeycloakState.refreshToken state = KeycloakInstance.refreshToken instance
  ∧ KeycloakState.refreshTokenParsed state
    = KeycloakInstance.refreshTokenParsed instance
  ∧ KeycloakState.subject state = KeycloakInstance.subject instance
  ∧ KeycloakState.realmAccess state = KeycloakInstance.realmAccess instance
  ∧ KeycloakState.resourceAccess state
    = KeycloakInstance.resourceAccess instance
  ∧ KeycloakState.timeSkew state
    = Js.coalesce_undefined (KeycloakInstance.timeSkew instance)
  ∧ KeycloakState.responseMode state = KeycloakInstance.responseMode instance
  ∧ KeycloakState.flow state = KeycloakInstance.flow instance
  ∧ KeycloakState.responseType state = KeycloakInstance.responseType instance.

(** The invariant of the store: authenticated only with an access token. *)
Definition authenticated_has_token (state : KeycloakState.t) : Prop :=
  KeycloakState.isAuthenticated state = true →
  is_Some (KeycloakState.token state).

(** The same of an adapter snapshot. *)
Definition snapshot_has_token (instance : KeycloakInstance.t) : Prop :=
  KeycloakInstance.authenticated instance = Some true →
  is_Some (KeycloakInstance.token instance).

(** The six token fields of the store. *)
Definition tokenFields (state : KeycloakState.t) :=
  (KeycloakState.token state, KeycloakState.tokenParsed state,
   KeycloakState.idToken state, KeycloakState.idTokenParsed state,
   KeycloakState.refreshToken state, KeycloakState.refreshTokenParsed state).

(** The fields of the store that neither [isAuthenticated], [profile] nor
    the token fields are. *)
Definition otherFields (state : KeycloakState.t) :=
  (KeycloakState.instance state, KeycloakState.isReady state,
   KeycloakState.subject state, KeycloakState.realmAccess state,
   KeycloakState.resourceAccess state, KeycloakState.timeSkew state,
   KeycloakState.responseMode state, KeycloakState.flow state,
   KeycloakState.adapter state, KeycloakState.responseType state,
   KeycloakState.isLoading state, KeycloakState.error state).

(** Every adapter snapshot an action reads obeys [snapshot_has_token]. *)
Definition action_has_token (a : Action) : Prop :=
  match a with
  | Fires _ instance
  | InitSettles instance _
  | UpdateTokenSettles instance _
  | ClearToken instance => snapshot_has_token instance
  | _ => True
  end.

(** What the logout handler would leave if it cleared the tokens too: no
    authentication, no profile and no token field. *)
Definition logoutClearsTokens (state' : KeycloakState.t) : Prop :=
  KeycloakState.isAuthenticated state' = false
  ∧ KeycloakState.profile state' = None
  ∧ tokenFields state' = (None, None, None, None, None, None).

(** [install] returns normally, and has called [init] unless [autoInit]
    is exactly [false]. *)
Definition installReturnsAndInits (outcome : Plugin.installed)
    (options : KeycloakPluginOptions.t) : Prop :=
  Plugin.completion outcome = Js.Return tt
  ∧ (KeycloakPluginOptions.autoInit options ≠ Some false →
     is_Some (Plugin.pendingInit outcome)).

(** The token's [preferred_username] wins over a differing username of
    the profile whenever both are there. *)
Definition tokenUsernameWins (state : KeycloakState.t) : Prop :=
  ∀ token profile t p,
    KeycloakState.tokenParsed state = Some token →
    KeycloakState.profile state = Some profile →
    KeycloakTokenParsed.preferred_username token = Some t →
    KeycloakProfile.username profile = Some p →
    t ≠ p →
    Getters.username state = Some t.

(** An empty string in any field a name getter reads counts as absent:
    the getter yields what its other source has. *)
Definition emptyFallsBack (state : KeycloakState.t) : Prop :=
  let token f := KeycloakState.tokenParsed state ≫= f in
  let profile f := KeycloakState.profile state ≫= f in
  (token KeycloakTokenParsed.preferred_username = Some "" →
   Getters.username state = profile KeycloakProfile.username)
  ∧ (token KeycloakTokenParsed.email = Some "" →
     Getters.email state = profile KeycloakProfile.email)
  ∧ (token KeycloakTokenParsed.given_name = Some "" →
     Getters.firstName state = profile KeycloakProfile.firstName)
  ∧ (token KeycloakTokenParsed.family_name = Some "" →
     Getters.lastName state = profile KeycloakProfile.lastName)
  ∧ (profile KeycloakProfile.firstName = Some "" →
     Getters.firstName state = token KeycloakTokenParsed.given_name
     ∧ Getters.fullName state = token KeycloakTokenParsed.name)
  ∧ (profile KeycloakProfile.lastName = Some "" →
     Getters.lastName state = token KeycloakTokenParsed.family_name
     ∧ Getters.fullName state = token KeycloakTokenParsed.name).

(** ** Sample data, after the mocks of the test suites *)

Module Mock.

(** [mockConfig] of [composable.test.ts] and [plugin.test.ts]. *)
Definition mockConfig : KeycloakConfig :=
  ConfigObject "http://localhost:8080/auth" "test-realm" "test-client".

Definition tokenOf (preferred_username : string) : KeycloakTokenParsed.t :=
  {| KeycloakTokenParsed.exp := Some 1700000300%Z;
     KeycloakTokenParsed.iat := Some 1700000000%Z;
     KeycloakTokenParsed.nonce := None;
     KeycloakTokenParsed.sub := Some "user-123";
     KeycloakTokenParsed.session_state := None;
     KeycloakTokenParsed.realm_access := None;
     KeycloakTokenParsed.resource_access := None;
     KeycloakTokenParsed.preferred_username := Some preferred_username;
     KeycloakTokenParsed.email := Some "test@example.com";
     KeycloakTokenParsed.name := None;
     KeycloakTokenParsed.given_name := None;
     KeycloakTokenParsed.family_name := None |}.

(** The adapter of [composable.test.ts]: a logged-in user. *)
Definition loggedIn (preferred_username : string) : KeycloakInstance.t :=
  {| KeycloakInstance.authenticated := Some true;
     KeycloakInstance.token := Some "test-token";
     KeycloakInstance.tokenParsed := Some (tokenOf preferred_username);
     KeycloakInstance.idToken := Some "test-id-token";
     KeycloakInstance.idTokenParsed := Some KeycloakTokenParsed.empty;
     KeycloakInstance.refreshToken := Some "test-refresh-token";
     KeycloakInstance.refreshTokenParsed := Some KeycloakTokenParsed.empty;
     KeycloakInstance.subject := Some "user-123";
     KeycloakInstance.realmAccess :=
       Some {| KeycloakRoles.roles := ["user"; "admin"] |};
     KeycloakInstance.resourceAccess :=
       Some {["test-app" := {| KeycloakRoles.roles := ["view"; "edit"] |}]};
     KeycloakInstance.timeSkew := Js.Val 0%Z;
     KeycloakInstance.responseMode := Some "fragment";
     KeycloakInstance.flow := Some "standard";
     KeycloakInstance.responseType := Some "code" |}.

(** The adapter of [plugin.test.ts]: nobody is logged in. *)
Definition loggedOut : KeycloakInstance.t :=
  {| KeycloakInstance.authenticated := Some false;
     KeycloakInstance.token := None;
     KeycloakInstance.tokenParsed := None;
     KeycloakInstance.idToken := None;
     KeycloakInstance.idTokenParsed := None;
     KeycloakInstance.refreshToken := None;
     KeycloakInstance.refreshTokenParsed := None;
     KeycloakInstance.subject := None;
     KeycloakInstance.realmAccess := None;
     KeycloakInstance.resourceAccess := None;
     KeycloakInstance.timeSkew := Js.Val 0%Z;
     KeycloakInstance.responseMode := Some "fragment";
     KeycloakInstance.flow := Some "standard";
     KeycloakInstance.responseType := Some "code" |}.

Definition profileOf (username : string) (firstName : option string)
    : KeycloakProfile.t :=
  {| KeycloakProfile.id := Some "user-123";
     KeycloakProfile.username := Some username;
     KeycloakProfile.email := Some "test@example.com";
     KeycloakProfile.firstName := firstName;
     KeycloakProfile.lastName := Some "User";
     KeycloakProfile.enabled := None;
     KeycloakProfile.emailVerified := None;
     KeycloakProfile.totp := None;
     KeycloakProfile.createdTimestamp := None |}.

(** A facade that was built and initialised with a logged-in user
    (the token carries [preferred_username]), with the profile loaded. *)
Definition session (preferred_username : string)
    (profile : KeycloakProfile.t) : KeycloakState.t :=
  run (fresh mockConfig None)
      [InitStarts None;
       Fires (Ready (Some true)) (loggedIn preferred_username);
       InitSettles (loggedIn preferred_username) (Js.Resolved true);
       LoadUserProfileStarts;
       LoadUserProfileSettles (Js.Resolved profile)].

(** A token whose only name claim is an empty [given_name]. *)
Definition emptyGivenName : KeycloakTokenParsed.t :=
  {| KeycloakTokenParsed.exp := None;
     KeycloakTokenParsed.iat := None;
     KeycloakTokenParsed.nonce := None;
     KeycloakTokenParsed.sub := None;
     KeycloakTokenParsed.session_state := None;
     KeycloakTokenParsed.realm_access := None;
     KeycloakTokenParsed.resource_access := None;
     KeycloakTokenParsed.preferred_username := None;
     KeycloakTokenParsed.email := None;
     KeycloakTokenParsed.name := None;
     KeycloakTokenParsed.given_name := Some "";
     KeycloakTokenParsed.family_name := None |}.

(** A store whose parsed access token is [token] and which has no
    profile. *)
Definition tokenOnly (token : KeycloakTokenParsed.t) : KeycloakState.t :=
  Composable.updateState createKeycloakState
    {| KeycloakInstance.authenticated := Some true;
       KeycloakInstance.token := Some "test-token";
       KeycloakInstance.tokenParsed := Some token;
       KeycloakInstance.idToken := None;
       KeycloakInstance.idTokenParsed := None;
       KeycloakInstance.refreshToken := None;
       KeycloakInstance.refreshTokenParsed := None;
       KeycloakInstance.subject := None;
       KeycloakInstance.realmAccess := None;
       KeycloakInstance.resourceAccess := None;
       KeycloakInstance.timeSkew := Js.Undefined;
       KeycloakInstance.responseMode := None;
       KeycloakInstance.flow := None;
       KeycloakInstance.responseType := None |}.

(** The store of the facade of [mockConfig], just built. *)
Definition built : KeycloakState.t := fresh mockConfig None.

(** The adapter object of that facade. *)
Definition builtRef : InstanceRef.t :=
  {| InstanceRef.config := mockConfig; InstanceRef.callbacks := None |}.

(** "testuser" logged in and the profile loaded. *)
Definition testuser : KeycloakState.t :=
  session "testuser" (profileOf "testuser" (Some "Test")).

(** The token says "tok_user", the profile "prof_user". *)
Definition disagreeing : KeycloakState.t :=
  session "tok_user" (profileOf "prof_user" None).

(** The token's [preferred_username] is empty, the profile says
    "prof_user". *)
Definition emptyClaim : KeycloakState.t :=
  session "" (profileOf "prof_user" None).

(** The profile's [firstName] is empty. *)
Definition emptyFirstName : KeycloakState.t :=
  session "alice" (profileOf "alice" (Some "")).

(** The adapter fires its ready event for a user who is not logged in. *)
Definition readyLoggedOut : Action := Fires (Ready (Some false)) loggedOut.

(** What a second round of construction, a failing [init] and a logout
    do afterwards. *)
Definition secondRound : list Action :=
  [InitKeycloak (ConfigUrl "http://localhost:8080/keycloak.json") None;
   InitStarts None;
   InitSettles loggedOut (Js.Rejected Js.VUndefined);
   Fires AuthLogout loggedOut].

(** [createKeycloakPlugin({ config: mockConfig })] *)
Definition pluginOptions : KeycloakPluginOptions.t :=
  {| KeycloakPluginOptions.config := mockConfig;
     KeycloakPluginOptions.initOptions := None;
     KeycloakPluginOptions.autoInit := None;
     KeycloakPluginOptions.callbacks := None |}.

(** An adapter whose constructor throws. *)
Definition constructorThrows : Js.completion unit :=
  Js.Throw (Js.VError {| Js.message := "constructor failed" |}).

End Mock.

(** The value an action rejects with, when it is the resumption of an
    operation whose adapter call failed. *)
Definition rejection (a : Action) : option Js.value :=
  match a with
  | InitSettles _ (Js.Rejected v)
  | UpdateTokenSettles _ (Js.Rejected v)
  | LoadUserProfileSettles (Js.Rejected v) => Some v
  | _ => None
  end.

(** The actions with an assignment to [state.error.value] on their path. *)
Definition writesError (a : Action) : bool :=
  match a with
  | InitStarts _ => true
  | Fires (AuthError _) _ => true
  | _ => bool_decide (is_Some (rejection a))
  end.

(** The adapter snapshot an action syncs the store from, when it does. *)
Definition syncsFrom (a : Action) : option KeycloakInstance.t :=
  match a with
  | Fires (Ready _) instance
  | Fires AuthSuccess instance
  | Fires AuthRefreshSuccess instance
  | InitSettles instance (Js.Resolved _)
  | UpdateTokenSettles instance (Js.Resolved true)
  | ClearToken instance => Some instance
  | _ => None
  end.

(** The snapshot of the last sync among [actions], [before] when there is
    none. *)
Definition lastSyncAfter (before : option KeycloakInstance.t)
    (actions : list Action) : option KeycloakInstance.t :=
  fold_left (fun found a =>
               match syncsFrom a with
               | Some instance => Some instance
               | None => found
               end)
            actions before.

Definition lastSync : list Action -> option KeycloakInstance.t :=
  lastSyncAfter None.

(** The fields of the store that only [updateState] writes. *)
Definition mirrored (state : KeycloakState.t) :=
  (tokenFields state,
   (KeycloakState.subject state, KeycloakState.realmAccess state,
    KeycloakState.resourceAccess state, KeycloakState.timeSkew state,
    KeycloakState.responseMode state, KeycloakState.flow state,
    KeycloakState.responseType state)).

(** What these fields are when they are copied from [instance]. *)
Definition mirrorOf (instance : KeycloakInstance.t) :=
  ((KeycloakInstance.token instance, KeycloakInstance.tokenParsed instance,
    KeycloakInstance.idToken instance,
    KeycloakInstance.idTokenParsed instance,
    KeycloakInstance.refreshToken instance,
    KeycloakInstance.refreshTokenParsed instance),
   (KeycloakInstance.subject instance, KeycloakInstance.realmAccess instance,
    KeycloakInstance.resourceAccess instance,
    Js.coalesce_undefined (KeycloakInstance.timeSkew instance),
    KeycloakInstance.responseMode instance, KeycloakInstance.flow instance,
    KeycloakInstance.responseType instance)).

(** ** More sample data *)

Module Sample.

(** Callbacks of a caller who supplied every one of them. *)
Definition allCallbacks : KeycloakCallbacks.t :=
  {| KeycloakCallbacks.onReady := true;
     KeycloakCallbacks.onAuthSuccess := true;
     KeycloakCallbacks.onAuthError := true;
     KeycloakCallbacks.onAuthRefreshSuccess := true;
     KeycloakCallbacks.onAuthRefreshError := true;
     KeycloakCallbacks.onAuthLogout := true;
     KeycloakCallbacks.onTokenExpired := true |}.

(** A login round trip, a refresh that fails and the logout after it. *)
Definition loginThenLogout : list Action :=
  [InitStarts None;
   Fires (Ready (Some true)) (Mock.loggedIn "testuser");
   InitSettles (Mock.loggedIn "testuser") (Js.Resolved true);
   UpdateTokenStarts None;
   Fires AuthRefreshError (Mock.loggedIn "testuser");
   UpdateTokenSettles (Mock.loggedIn "testuser") (Js.Rejected Js.VObject);
   Fires AuthLogout Mock.loggedOut;
   ClearToken Mock.loggedOut].

(** "Test User" with a token that has a [name] claim of its own. *)
Definition namedToken : KeycloakTokenParsed.t :=
  {| KeycloakTokenParsed.exp := None;
     KeycloakTokenParsed.iat := None;
     KeycloakTokenParsed.nonce := None;
     KeycloakTokenParsed.sub := None;
     KeycloakTokenParsed.session_state := None;
     KeycloakTokenParsed.realm_access := None;
     KeycloakTokenParsed.resource_access := None;
     KeycloakTokenParsed.preferred_username := None;
     KeycloakTokenParsed.email := None;
     KeycloakTokenParsed.name := Some "A. L.";
     KeycloakTokenParsed.given_name := Some "A.";
     KeycloakTokenParsed.family_name := Some "L." |}.

Definition adaLovelace : KeycloakState.t :=
  KeycloakState.set_profile
    (Some {| KeycloakProfile.id := None;
             KeycloakProfile.username := None;
             KeycloakProfile.email := None;
             KeycloakProfile.firstName := Some "Ada";
             KeycloakProfile.lastName := Some "Lovelace";
             KeycloakProfile.enabled := None;
             KeycloakProfile.emailVerified := None;
             KeycloakProfile.totp := None;
             KeycloakProfile.createdTimestamp := None |})
    (Mock.tokenOnly namedToken).

(** The actions behind [Mock.testuser]. *)
Definition testuserActions : list Action :=
  [InitStarts None;
   Fires (Ready (Some true)) (Mock.loggedIn "testuser");
   InitSettles (Mock.loggedIn "testuser") (Js.Resolved true);
   LoadUserProfileStarts;
   LoadUserProfileSettles
     (Js.Resolved (Mock.profileOf "testuser" (Some "Test")))].

(** A facade whose token refresh has failed. *)
Definition failedRefresh : KeycloakState.t :=
  run Mock.built
      [UpdateTokenStarts (Some 30%Z);
       UpdateTokenSettles Mock.loggedOut (Js.Rejected Js.VObject)].

End Sample.

(** Lay a step open down to the field writes. *)
Ltac unfold_step :=
  unfold step, Composable.fire, Composable.handle, Composable.onReady,
    Composable.onAuthSuccess, Composable.onAuthError,
    Composable.onAuthRefreshSuccess, Composable.onAuthRefreshError,
    Composable.onAuthLogout, Composable.onTokenExpired,
    Composable.initKeycloak, Composable.init_start, Composable.init_resume,
    Composable.updateToken_start, Composable.updateToken_resume,
    Composable.loadUserProfile_start, Composable.loadUserProfile_resume,
    Composable.clearToken, Composable.delegate_start;
  simpl.

(** * Theorems *)

(** ** [updateState] *)

Section UpdateState.
Import Composable.

Lemma updateState_synced state instance :
  synced (updateState state instance) instance.
Proof.
  unfold synced; simpl.
  repeat split.
  destruct (KeycloakInstance.authenticated instance) as [[]|]; reflexivity.
Qed.

(** What [updateState] does not write. *)
Lemma updateState_frame state instance :
  let state' := updateState state instance in
  KeycloakState.instance state' = KeycloakState.instance state
  ∧ KeycloakState.isReady state' = KeycloakState.isReady state
  ∧ KeycloakState.profile state' = KeycloakState.profile state
  ∧ KeycloakState.adapter state' = KeycloakState.adapter state
  ∧ KeycloakState.isLoading state' = KeycloakState.isLoading state
  ∧ KeycloakState.error state' = KeycloakState.error state.
Proof. repeat split. Qed.

Lemma updateState_has_token state instance :
  snapshot_has_token instance →
  authenticated_has_token (updateState state instance).
Proof.
  unfold snapshot_has_token, authenticated_has_token; simpl.
  destruct (KeycloakInstance.authenticated instance) as [[]|];
    intros Hsnap Hauth; try discriminate.
  by apply Hsnap.
Qed.

Lemma sync_has_token (snapshots : list KeycloakInstance.t) : ∀ state,
  Forall snapshot_has_token snapshots →
  authenticated_has_token state ∨ snapshots ≠ [] →
  authenticated_has_token (fold_left updateState snapshots state).
Proof.
  induction snapshots as [|instance rest IH]; intros state Hall Hstart.
  - destruct Hstart as [Hstate|Hne]; [exact Hstate|contradiction].
  - inversion Hall as [|? ? Hinst Hrest]; subst. simpl.
    apply IH; [exact Hrest|].
    left. by apply updateState_has_token.
Qed.

(** C1.  Sync the fresh store from any sequence of adapter snapshots, each
    of which carries a token when it says [authenticated = true]: the
    resulting store is not authenticated without a token.  The same holds
    from any store at all once one sync has happened, because each
    [updateState] writes the flag and the token from the same snapshot. *)
Theorem C1_sync_keeps_authenticated_with_token
    (snapshots : list KeycloakInstance.t) :
  Forall snapshot_has_token snapshots →
  authenticated_has_token (fold_left updateState snapshots createKeycloakState)
  ∧ (∀ state, snapshots ≠ [] →
              authenticated_has_token (fold_left updateState snapshots state))
  ∧ Forall (fun instance =>
              ∀ s, KeycloakState.isAuthenticated (updateState s instance)
                   = bool_decide
                       (KeycloakInstance.authenticated instance = Some true)
                   ∧ KeycloakState.token (updateState s instance)
                     = KeycloakInstance.token instance)
           snapshots.
Proof.
  intros Hall. split; [|split].
  - apply sync_has_token; [exact Hall|].
    left. intros H; discriminate H.
  - intros state Hne. apply sync_has_token; [exact Hall|by right].
  - apply Forall_forall. intros instance _ s.
    destruct (updateState_synced s instance) as (Hauth & Htok & _).
    by split.
Qed.
End UpdateState.

Lemma C1_sync_witness :
  authenticated_has_token
    (fold_left Composable.updateState
               [Mock.loggedOut; Mock.loggedIn "testuser"]
               createKeycloakState).
Proof.
  refine (proj1 (C1_sync_keeps_authenticated_with_token
                   [Mock.loggedOut; Mock.loggedIn "testuser"] _)).
  repeat constructor; intros H; simpl; eauto; discriminate H.
Defined.

(** ** The event handlers *)

Section Handlers.
Import Composable.

(** C2, as stated, fails: after a login and a loaded profile the logout
    handler leaves the three tokens and their parsed claims in the
    store. *)
Lemma C2_logout_keeps_tokens_counterexample :
  KeycloakState.token Mock.testuser = Some "test-token"
  ∧ KeycloakState.token (fire AuthLogout Mock.loggedOut Mock.testuser).1
    = Some "test-token"
  ∧ ¬ logoutClearsTokens (fire AuthLogout Mock.loggedOut Mock.testuser).1.
Proof.
  split; [reflexivity|]. split; [reflexivity|].
  intros (_ & _ & Htokens). discriminate Htokens.
Qed.

(** C2, amended.  The logout handler sets [isAuthenticated] to false and
    [profile] to null, forwards to the caller's [onAuthLogout] when
    there is one, and leaves every other field of the store, the token
    fields among them, as it was. *)
Theorem C2_logout_handler callbacks (state : KeycloakState.t) :
  let (state', calls) := onAuthLogout callbacks state in
  KeycloakState.isAuthenticated state' = false
  ∧ KeycloakState.profile state' = None
  ∧ tokenFields state' = tokenFields state
  ∧ otherFields state' = otherFields state
  ∧ calls = (if provided callbacks KeycloakCallbacks.onAuthLogout
             then [CallOnAuthLogout] else [])
  ∧ ∀ instance, handle callbacks AuthLogout instance state = (state', calls).
Proof. simpl. repeat split. Qed.
End Handlers.

(** ** The operations *)

Section Operations.
Import Composable.

Lemma synced_set_isLoading b state instance :
  synced state instance →
  synced (KeycloakState.set_isLoading b state) instance.
Proof. intros H; exact H. Qed.

(** With an adapter object in the store, the synchronous part of an
    operation gets as far as the adapter call. *)
Lemma whole_awaits {R} start during resume state state1 call :
  start state = (state1, Awaits call) →
  @whole R start during resume state = resume (run state1 during).
Proof. intros H. unfold whole. by rewrite H. Qed.

(** C3.  [init(options)] on a facade whose store holds an adapter
    object: the adapter's [init] is called, with [options || {}], on a
    store in which [isLoading] is true and [error] is null; whatever
    writes to the store while the adapter works, when its promise
    resolves with [authenticated] the store is synced from the adapter
    and [authenticated] is the result, when it rejects with [e] the
    store's [error] is [e] as an [Error] and [e] is the rejection of
    [init]; either way [isLoading] ends false. *)
Theorem C3_init_brackets_loading
    (state : KeycloakState.t) (ref : InstanceRef.t)
    (options : option Options) (during : list Action)
    (instance : KeycloakInstance.t) (r : Js.settled bool) :
  KeycloakState.instance state = Some ref →
  ∃ delegated,
    init_start options state
      = (delegated, Awaits (AdapterInit (default ∅ options)))
    ∧ KeycloakState.isLoading delegated = true
    ∧ KeycloakState.error delegated = None
    ∧ let (final, result) := init options during instance r state in
      KeycloakState.isLoading final = false
      ∧ match r with
        | Js.Resolved authenticated =>
            result = Js.Resolved authenticated ∧ synced final instance
        | Js.Rejected e =>
            result = Js.Rejected e
            ∧ KeycloakState.error final = Some (Js.toError e)
        end.
Proof.
  intros Href.
  assert (Hstart : init_start options state
                   = (KeycloakState.set_error None
                        (KeycloakState.set_isLoading true state),
                      Awaits (AdapterInit (default ∅ options)))).
  { unfold init_start. by rewrite Href. }
  eexists. split; [exact Hstart|].
  split; [reflexivity|]. split; [reflexivity|].
  unfold init. rewrite (whole_awaits _ _ _ _ _ _ Hstart).
  destruct r as [authenticated|e]; simpl.
  - split; [reflexivity|]. split; [reflexivity|].
    apply synced_set_isLoading, updateState_synced.
  - by repeat split.
Qed.

(** C4.  [updateToken] on a facade whose store holds an adapter object:
    the adapter is asked with 5 seconds when [minValidity] is left out;
    when it reports a rotation the store is synced and the result is
    true; when it reports none the result is false and the call has
    written nothing, so the store is what the other writers left, and
    is the store from before the call when there were none; when it
    rejects with [e] the store's [error] is [e] as an [Error] and [e] is
    the rejection of [updateToken]. *)
Theorem C4_updateToken_syncs_only_on_rotation
    (state : KeycloakState.t) (ref : InstanceRef.t)
    (minValidity : option Z) (during : list Action)
    (instance : KeycloakInstance.t) :
  KeycloakState.instance state = Some ref →
  updateToken_start None state = (state, Awaits (AdapterUpdateToken 5))
  ∧ (∀ seconds, updateToken_start (Some seconds) state
                = (state, Awaits (AdapterUpdateToken seconds)))
  ∧ (let (final, result) :=
       updateToken minValidity during instance (Js.Resolved true) state in
     result = Js.Resolved true ∧ synced final instance)
  ∧ updateToken minValidity during instance (Js.Resolved false) state
    = (run state during, Js.Resolved false)
  ∧ updateToken minValidity [] instance (Js.Resolved false) state
    = (state, Js.Resolved false)
  ∧ (∀ e, let (final, result) :=
            updateToken minValidity during instance (Js.Rejected e) state in
          result = Js.Rejected e
          ∧ KeycloakState.error final = Some (Js.toError e)).
Proof.
  intros Href.
  assert (Hstart : ∀ mv, updateToken_start mv state
                         = (state, Awaits (AdapterUpdateToken
                                             (default DEFAULT_MIN_VALIDITY mv)))).
  { intros mv. unfold updateToken_start. by rewrite Href. }
  split; [exact (Hstart None)|].
  split; [exact (fun seconds => Hstart (Some seconds))|].
  unfold updateToken.
  rewrite !(whole_awaits _ _ _ _ _ _ (Hstart minValidity)). simpl.
  repeat split; [apply updateState_synced|].
  intros e. by rewrite (whole_awaits _ _ _ _ _ _ (Hstart minValidity)).
Qed.

(** C6.  [loadUserProfile] on a facade whose store holds an adapter
    object: when the adapter rejects with [e], the call has not written
    [profile] (it is what the other writers left, and the one from
    before the call when there were none), the store's [error] is [e]
    as an [Error], and [e] is the rejection of [loadUserProfile]; when
    the adapter resolves with a profile, that profile is stored and is
    the result. *)
Theorem C6_loadUserProfile_failure_keeps_profile
    (state : KeycloakState.t) (ref : InstanceRef.t)
    (during : list Action) :
  KeycloakState.instance state = Some ref →
  (∀ e, let (final, result) :=
          loadUserProfile during (Js.Rejected e) state in
        result = Js.Rejected e
        ∧ KeycloakState.error final = Some (Js.toError e)
        ∧ KeycloakState.profile final
          = KeycloakState.profile (run state during))
  ∧ (∀ e, KeycloakState.profile
            (loadUserProfile [] (Js.Rejected e) state).1
          = KeycloakState.profile state)
  ∧ (∀ profile, let (final, result) :=
                  loadUserProfile during (Js.Resolved profile) state in
                result = Js.Resolved profile
                ∧ KeycloakState.profile final = Some profile).
Proof.
  intros Href.
  assert (Hstart : loadUserProfile_start state
                   = (state, Awaits AdapterLoadUserProfile)).
  { unfold loadUserProfile_start. by rewrite Href. }
  unfold loadUserProfile.
  split; [|split]; intros x; rewrite (whole_awaits _ _ _ _ _ _ Hstart);
    simpl; repeat split.
Qed.
End Operations.

Lemma C3_init_witness :
  KeycloakState.isLoading
    (init None [Mock.readyLoggedOut] Mock.loggedOut (Js.Resolved false)
          Mock.built).1
  = false
  ∧ KeycloakState.error
      (init None [] Mock.loggedOut (Js.Rejected (Js.VString "timeout"))
            Mock.built).1
    = Some {| Js.message := "timeout" |}.
Proof.
  split.
  - destruct (C3_init_brackets_loading
                Mock.built Mock.builtRef None [Mock.readyLoggedOut]
                Mock.loggedOut (Js.Resolved false) eq_refl)
      as (delegated & _ & _ & _ & Hfinal).
    destruct (init None [Mock.readyLoggedOut] Mock.loggedOut
                   (Js.Resolved false) Mock.built) as [final result].
    exact (proj1 Hfinal).
  - destruct (C3_init_brackets_loading
                Mock.built Mock.builtRef None [] Mock.loggedOut
                (Js.Rejected (Js.VString "timeout")) eq_refl)
      as (delegated & _ & _ & _ & Hfinal).
    destruct (init None [] Mock.loggedOut
                   (Js.Rejected (Js.VString "timeout")) Mock.built)
      as [final result].
    exact (proj2 (proj2 Hfinal)).
Defined.

Lemma C4_updateToken_witness :
  updateToken (Some 30%Z) [] (Mock.loggedIn "testuser") (Js.Resolved false)
              Mock.testuser
  = (Mock.testuser, Js.Resolved false).
Proof.
  refine (proj1 (proj2 (proj2 (proj2 (proj2
            (C4_updateToken_syncs_only_on_rotation
               Mock.testuser Mock.builtRef (Some 30%Z) []
               (Mock.loggedIn "testuser") _)))))).
  reflexivity.
Defined.

Lemma C6_loadUserProfile_witness :
  KeycloakState.profile
    (loadUserProfile [] (Js.Rejected (Js.VString "network")) Mock.built).1
  = None.
Proof.
  refine (proj1 (proj2
            (C6_loadUserProfile_failure_keeps_profile
               Mock.built Mock.builtRef [] _))
            (Js.VString "network")).
  reflexivity.
Defined.

(** ** Readiness over the life of a facade *)

Section Readiness.
Import Composable.

(** One step never takes [isReady] back. *)
Lemma step_keeps_ready state a :
  KeycloakState.isReady state = true →
  KeycloakState.isReady (step state a) = true.
Proof.
  intros Hready.
  destruct a as [event instance|config callbacks|options|instance r
                |minValidity|instance r| |r|instance|call];
    unfold_step; repeat case_match; simpl; auto.
Qed.

(** The one step that sets [isReady] is the adapter's ready event. *)
Lemma step_sets_ready state a :
  KeycloakState.isReady state = false →
  KeycloakState.isReady (step state a) = true →
  ∃ authenticated instance, a = Fires (Ready authenticated) instance.
Proof.
  intros Hnot.
  destruct a as [event instance|config callbacks|options|instance r
                |minValidity|instance r| |r|instance|call];
    unfold_step; repeat case_match; simpl; intros Hset; try congruence; eauto.
Qed.

(** The invariant of [updateState] is one of the whole facade. *)
Lemma step_keeps_token_invariant state a :
  action_has_token a →
  authenticated_has_token state →
  authenticated_has_token (step state a).
Proof.
  unfold authenticated_has_token, snapshot_has_token.
  destruct a as [event instance|config callbacks|options|instance r
                |minValidity|instance r| |r|instance|call];
    unfold_step; intros Hsnap Hinv; repeat case_match; simpl in *;
    try discriminate; auto;
    intros Hauth; apply Hsnap;
    by destruct (KeycloakInstance.authenticated instance) as [[]|].
Qed.

Lemma run_keeps_token_invariant actions : ∀ state,
  Forall action_has_token actions →
  authenticated_has_token state →
  authenticated_has_token (run state actions).
Proof.
  induction actions as [|a actions IH]; intros state Hall Hinv.
  - exact Hinv.
  - inversion Hall; subst. simpl. apply IH; [assumption|].
    by apply step_keeps_token_invariant.
Qed.

Lemma run_app state actions more :
  run state (actions ++ more) = run (run state actions) more.
Proof. apply fold_left_app. Qed.

Lemma run_keeps_ready actions : ∀ state,
  KeycloakState.isReady state = true →
  KeycloakState.isReady (run state actions) = true.
Proof.
  induction actions as [|a actions IH]; intros state Hready.
  - exact Hready.
  - simpl. apply IH. by apply step_keeps_ready.
Qed.

Lemma run_ready_had_event actions : ∀ state,
  KeycloakState.isReady state = false →
  KeycloakState.isReady (run state actions) = true →
  ∃ authenticated instance, Fires (Ready authenticated) instance ∈ actions.
Proof.
  induction actions as [|a actions IH]; intros state Hnot Hready.
  - simpl in Hready. congruence.
  - simpl in Hready.
    destruct (KeycloakState.isReady (step state a)) eqn:Hstep.
    + destruct (step_sets_ready state a Hnot Hstep) as (au & inst & ->).
      exists au, inst. apply list_elem_of_here.
    + destruct (IH _ Hstep Hready) as (au & inst & Hin).
      exists au, inst. by apply list_elem_of_further.
Qed.

(** C5.  In the store of a facade, [isReady] starts false; over any
    sequence of adapter events and facade operations (each operation
    split at its [await]), once it is true it is true after every
    further action, [initKeycloak] and [init] included; and it is true
    only after the adapter fired its ready event. *)
Theorem C5_isReady_monotonic
    (config : KeycloakConfig) (callbacks : option KeycloakCallbacks.t)
    (before after : list Action) :
  KeycloakState.isReady createKeycloakState = false
  ∧ KeycloakState.isReady (fresh config callbacks) = false
  ∧ (KeycloakState.isReady (run (fresh config callbacks) before) = true →
     KeycloakState.isReady (run (fresh config callbacks) (before ++ after))
     = true)
  ∧ (KeycloakState.isReady (run (fresh config callbacks) before) = true →
     ∃ authenticated instance,
       Fires (Ready authenticated) instance ∈ before)
  ∧ (∀ state a,
       KeycloakState.isReady state = false →
       KeycloakState.isReady (step state a) = true →
       ∃ authenticated instance, a = Fires (Ready authenticated) instance).
Proof.
  split; [reflexivity|]. split; [reflexivity|]. split; [|split].
  - intros Hready. rewrite run_app. by apply run_keeps_ready.
  - apply run_ready_had_event. reflexivity.
  - apply step_sets_ready.
Qed.
End Readiness.

Lemma C5_isReady_witness :
  KeycloakState.isReady (run Mock.built [InitStarts None]) = false
  ∧ KeycloakState.isReady
      (run Mock.built
           ([InitStarts None; Mock.readyLoggedOut] ++ Mock.secondRound))
    = true.
Proof.
  split; [reflexivity|].
  refine (proj1 (proj2 (proj2
            (C5_isReady_monotonic Mock.mockConfig None
               [InitStarts None; Mock.readyLoggedOut] Mock.secondRound))) _).
  reflexivity.
Defined.

(** ** The getters *)

Section NameGetters.

Lemma or_truthy (a b : option string) s :
  a = Some s → s ≠ "" → Js.or a b = a.
Proof.
  intros -> Hs. unfold Js.or, Js.truthy.
  destruct (String.eqb_spec s ""); [contradiction|reflexivity].
Qed.

Lemma or_falsy (a b : option string) :
  a = None ∨ a = Some "" → Js.or a b = b.
Proof. by intros [-> | ->]. Qed.

Lemma or_cases (a b : option string) :
  (Js.or a b = a ∧ ∃ s, a = Some s ∧ s ≠ "")
  ∨ (Js.or a b = b ∧ (a = None ∨ a = Some "")).
Proof.
  destruct a as [s|]; [|right; by split; [|left]].
  destruct (String.eqb_spec s "") as [->|Hne].
  - right. by split; [|right].
  - left. split; [by apply (or_truthy _ _ s)|by exists s].
Qed.

(** C7, as stated, fails: a token whose [preferred_username] is the
    empty string and a profile named "prof_user" differ, both are there,
    and the derived username is the profile's. *)
Lemma C7_empty_token_claim_counterexample :
  (KeycloakState.tokenParsed Mock.emptyClaim
     ≫= KeycloakTokenParsed.preferred_username) = Some ""
  ∧ (KeycloakState.profile Mock.emptyClaim ≫= KeycloakProfile.username)
    = Some "prof_user"
  ∧ Getters.username Mock.emptyClaim = Some "prof_user"
  ∧ ¬ tokenUsernameWins Mock.emptyClaim.
Proof.
  split; [reflexivity|]. split; [reflexivity|]. split; [reflexivity|].
  intros Hwins.
  specialize (Hwins (Mock.tokenOf "") (Mock.profileOf "prof_user" None)
                    "" "prof_user" eq_refl eq_refl eq_refl eq_refl).
  discriminate Hwins. discriminate.
Qed.

(** C7, amended.  A non-empty [preferred_username] in the parsed access
    token is the derived username, whatever the profile holds; the
    profile's username is the result when that claim is absent or is the
    empty string, and only then can the result differ from the claim.
    With "tok_user" in the token and "prof_user" in the profile the
    result is "tok_user". *)
Theorem C7_username_prefers_nonempty_token_claim
    (state : KeycloakState.t) :
  let claim :=
    KeycloakState.tokenParsed state
      ≫= KeycloakTokenParsed.preferred_username in
  let ofProfile :=
    KeycloakState.profile state ≫= KeycloakProfile.username in
  (∀ t, claim = Some t → t ≠ "" → Getters.username state = Some t)
  ∧ (claim = None ∨ claim = Some "" → Getters.username state = ofProfile)
  ∧ (Getters.username state ≠ claim →
     Getters.username state = ofProfile
     ∧ (claim = None ∨ claim = Some ""))
  ∧ Getters.username Mock.disagreeing = Some "tok_user".
Proof.
  intros claim ofProfile. unfold Getters.username. fold claim ofProfile.
  split; [|split; [|split]].
  - intros t Hclaim Hne. rewrite (or_truthy _ _ t Hclaim Hne). exact Hclaim.
  - apply or_falsy.
  - intros Hdiff.
    destruct (or_cases claim ofProfile) as [[Heq _]|[Heq Hfalsy]];
      [contradiction|by split].
  - reflexivity.
Qed.

(** C9, as stated, fails for [given_name]: with an empty [given_name]
    claim and no profile, [firstName] is the empty string itself and
    not the absent first name of the absent profile. *)
Lemma C9_empty_given_name_counterexample :
  (KeycloakState.tokenParsed (Mock.tokenOnly Mock.emptyGivenName)
     ≫= KeycloakTokenParsed.given_name) = Some ""
  ∧ (KeycloakState.profile (Mock.tokenOnly Mock.emptyGivenName)
       ≫= KeycloakProfile.firstName) = None
  ∧ Getters.firstName (Mock.tokenOnly Mock.emptyGivenName) = Some ""
  ∧ ¬ emptyFallsBack (Mock.tokenOnly Mock.emptyGivenName).
Proof.
  split; [reflexivity|]. split; [reflexivity|]. split; [reflexivity|].
  intros (_ & _ & Hgiven & _).
  specialize (Hgiven eq_refl). discriminate Hgiven.
Qed.

(** C9, amended.  An empty string in the first operand of a getter's
    [||] counts as absent: an empty [preferred_username] or [email]
    claim makes [username] or [email] the profile's field, an empty
    [firstName] or [lastName] of the profile makes [firstName] or
    [lastName] the token's [given_name] or [family_name] and makes
    [fullName] the token's [name].  An empty [given_name] or
    [family_name] claim is a second operand: the getter yields the
    profile's field when that is non-empty and the empty string
    otherwise. *)
Theorem C9_empty_first_operand_falls_back (state : KeycloakState.t) :
  let token f := KeycloakState.tokenParsed state ≫= f in
  let profile f := KeycloakState.profile state ≫= f in
  (token KeycloakTokenParsed.preferred_username = Some "" →
   Getters.username state = profile KeycloakProfile.username)
  ∧ (token KeycloakTokenParsed.email = Some "" →
     Getters.email state = profile KeycloakProfile.email)
  ∧ (profile KeycloakProfile.firstName = Some "" →
     Getters.firstName state = token KeycloakTokenParsed.given_name
     ∧ Getters.fullName state = token KeycloakTokenParsed.name)
  ∧ (profile KeycloakProfile.lastName = Some "" →
     Getters.lastName state = token KeycloakTokenParsed.family_name
     ∧ Getters.fullName state = token KeycloakTokenParsed.name)
  ∧ (token KeycloakTokenParsed.given_name = Some "" →
     Getters.firstName state
     = if Js.truthy (profile KeycloakProfile.firstName)
       then profile KeycloakProfile.firstName else Some "")
  ∧ (token KeycloakTokenParsed.family_name = Some "" →
     Getters.lastName state
     = if Js.truthy (profile KeycloakProfile.lastName)
       then profile KeycloakProfile.lastName else Some "").
Proof.
  intros token profile.
  unfold Getters.username, Getters.email, Getters.firstName,
    Getters.lastName, Getters.fullName.
  fold (token KeycloakTokenParsed.preferred_username)
       (token KeycloakTokenParsed.email)
       (token KeycloakTokenParsed.given_name)
       (token KeycloakTokenParsed.family_name)
       (token KeycloakTokenParsed.name)
       (profile KeycloakProfile.username)
       (profile KeycloakProfile.email)
       (profile KeycloakProfile.firstName)
       (profile KeycloakProfile.lastName).
  repeat split.
  - intros H. apply or_falsy. by right.
  - intros H. apply or_falsy. by right.
  - apply or_falsy. by right.
  - by rewrite H.
  - apply or_falsy. by right.
  - rewrite H. simpl. by rewrite andb_false_r.
  - intros H. unfold Js.or. by rewrite H.
  - intros H. unfold Js.or. by rewrite H.
Qed.
End NameGetters.

Lemma C7_username_witness :
  Getters.username Mock.disagreeing = Some "tok_user"
  ∧ Getters.username Mock.emptyClaim = Some "prof_user".
Proof.
  split.
  - refine (proj1 (C7_username_prefers_nonempty_token_claim Mock.disagreeing)
                  "tok_user" _ _); [reflexivity|discriminate].
  - refine (proj1 (proj2 (C7_username_prefers_nonempty_token_claim
                            Mock.emptyClaim)) _).
    right. reflexivity.
Defined.

Lemma C9_empty_first_operand_witness :
  Getters.username Mock.emptyClaim = Some "prof_user"
  ∧ Getters.fullName Mock.emptyFirstName = None
  ∧ Getters.firstName (Mock.tokenOnly Mock.emptyGivenName) = Some "".
Proof.
  split; [|split].
  - refine (proj1 (C9_empty_first_operand_falls_back Mock.emptyClaim) _).
    reflexivity.
  - refine (proj2 (proj1 (proj2 (proj2
              (C9_empty_first_operand_falls_back Mock.emptyFirstName))) _)).
    reflexivity.
  - refine (proj1 (proj2 (proj2 (proj2 (proj2
              (C9_empty_first_operand_falls_back
                 (Mock.tokenOnly Mock.emptyGivenName)))))) _).
    reflexivity.
Defined.

(** ** [useKeycloak] *)

Section UseKeycloak.
Import Composable.

(** C8.  Where nothing was provided under the plugin's key, and so in an
    application nothing was ever provided to, [useKeycloak] throws an
    [Error] that says so; it is not the error of an operation that
    finds no adapter object, and nothing is read from the missing
    facade.  Once the plugin is installed the same call returns the
    facade. *)
Theorem C8_useKeycloak_without_plugin
    (provides : gmap InjectionKey UseKeycloakReturn) :
  provides !! KEYCLOAK_INJECTION_KEY = None →
  useKeycloak provides
  = Js.Throw
      (Js.VError
         {| Js.message :=
              "Keycloak not initialized. Make sure to install the plugin with app.use(createKeycloakPlugin(config))" |})
  ∧ useKeycloak provides ≠ Js.Throw notInitialized
  ∧ useKeycloak (App.provides App.empty) = useKeycloak provides
  ∧ ∀ options globalState,
      useKeycloak
        (App.provides
           (Plugin.app
              (Plugin.install options
                 {| App.provides := provides;
                    App.globalProperties := ∅ |} globalState)))
      = Js.Return Facade.
Proof.
  intros Hnone. unfold useKeycloak, inject. rewrite Hnone.
  split; [reflexivity|]. split; [discriminate|]. split; [reflexivity|].
  intros options globalState. unfold Plugin.install.
  destruct (initKeycloak _ _ _) as [state keycloak] eqn:Hinit.
  assert (keycloak = Facade) as -> by (by destruct keycloak).
  destruct (Plugin.autoInitRequested _); [destruct (init_start _ _)|];
    simpl; by rewrite lookup_insert_eq.
Qed.
End UseKeycloak.

Lemma C8_useKeycloak_witness :
  Composable.useKeycloak {[OtherKey "router" := Facade]}
  = Js.Throw
      (Js.VError
         {| Js.message :=
              "Keycloak not initialized. Make sure to install the plugin with app.use(createKeycloakPlugin(config))" |}).
Proof.
  refine (proj1 (C8_useKeycloak_without_plugin
                   {[OtherKey "router" := Facade]} _)).
  reflexivity.
Defined.

(** ** The plugin *)

Section PluginInstall.
Import Composable Plugin.

Lemma initKeycloak_has_instance globalState config callbacks :
  is_Some (KeycloakState.instance
             (initKeycloak globalState config callbacks).1).
Proof.
  unfold initKeycloak.
  destruct globalState as [s|]; simpl.
  - destruct (KeycloakState.instance s) eqn:Hs; simpl; [by rewrite Hs|eauto].
  - eauto.
Qed.

(** With an adapter object at hand, or a constructor that returns,
    [initKeycloak] is the one above. *)
Lemma initKeycloak_constructing_returns
    constructed globalState config callbacks :
  is_Some (globalState ≫= KeycloakState.instance)
  ∨ constructed = Js.Return tt →
  initKeycloak_constructing constructed globalState config callbacks
  = ((initKeycloak globalState config callbacks).1, Js.Return Facade).
Proof.
  unfold initKeycloak_constructing, initKeycloak.
  destruct globalState as [s|]; simpl.
  - destruct (KeycloakState.instance s) eqn:Hs; simpl; rewrite ?Hs; simpl.
    + reflexivity.
    + intros [[? Hsome]| ->]; [discriminate Hsome|reflexivity].
  - intros [[? Hsome]| ->]; [discriminate Hsome|reflexivity].
Qed.

Lemma install_constructing_returns constructed options app globalState :
  is_Some (globalState ≫= KeycloakState.instance)
  ∨ constructed = Js.Return tt →
  install_constructing constructed options app globalState
  = install options app globalState.
Proof.
  intros Hcan. unfold install_constructing, install.
  rewrite (initKeycloak_constructing_returns _ _ _ _ Hcan).
  by destruct (initKeycloak _ _ _) as [state []].
Qed.

Lemma install_completion options app globalState :
  completion (install options app globalState) = Js.Return tt.
Proof.
  unfold install. destruct (initKeycloak _ _ _) as [state keycloak].
  destruct (autoInitRequested _); [by destruct (init_start _ state)|done].
Qed.

(** Without an adapter object and with a constructor that throws,
    [install] stops at [initKeycloak]. *)
Lemma install_constructing_throws w options app globalState :
  (globalState ≫= KeycloakState.instance) = None →
  install_constructing (Js.Throw w) options app globalState
  = {| completion := Js.Throw w; app := app;
       globalState := default createKeycloakState globalState;
       pendingInit := None |}.
Proof.
  intros Hnone. unfold install_constructing, initKeycloak_constructing.
  destruct globalState as [s|]; simpl in *; [by rewrite Hnone|reflexivity].
Qed.

Lemma constructing_cases (constructed : Js.completion unit)
    (globalState : option KeycloakState.t) :
  (is_Some (globalState ≫= KeycloakState.instance)
   ∨ constructed = Js.Return tt)
  ∨ ((globalState ≫= KeycloakState.instance) = None
     ∧ ∃ w, constructed = Js.Throw w).
Proof.
  destruct (globalState ≫= KeycloakState.instance) as [ref|];
    [left; left; by exists ref|].
  destruct constructed as [[]|w]; [left; by right|right; eauto].
Qed.

(** What the [install] that has its adapter object does about [init]. *)
Lemma install_autoInit (options : KeycloakPluginOptions.t) (app : App.t)
    (globalState : option KeycloakState.t) :
  let outcome := install options app globalState in
  (KeycloakPluginOptions.autoInit options ≠ Some false →
   pendingInit outcome
   = Some (Awaits (AdapterInit
                     (default ∅ (KeycloakPluginOptions.initOptions
                                   options))))
   ∧ KeycloakState.isLoading (Plugin.globalState outcome) = true)
  ∧ (KeycloakPluginOptions.autoInit options = Some false →
     pendingInit outcome = None)
  ∧ (∀ pending instance e state console,
       pendingInit outcome = Some pending →
       let '(state', caught, console') :=
         settleInit pending instance (Js.Rejected e) state console in
       caught = Js.Resolved None
       ∧ KeycloakState.error state' = Some (Js.toError e)
       ∧ console'
         = (console ++ [ConsoleError "Failed to initialize Keycloak:" e])%list).
Proof.
  intros outcome. subst outcome. unfold install.
  destruct (initKeycloak_has_instance globalState
              (KeycloakPluginOptions.config options)
              (KeycloakPluginOptions.callbacks options)) as [ref Href].
  destruct (initKeycloak _ _ _) as [state keycloak]. simpl in Href.
  assert (Hstart : init_start (KeycloakPluginOptions.initOptions options)
                     state
                   = (KeycloakState.set_error None
                        (KeycloakState.set_isLoading true state),
                      Awaits (AdapterInit
                                (default ∅ (KeycloakPluginOptions.initOptions
                                              options))))).
  { unfold init_start. by rewrite Href. }
  rewrite Hstart.
  destruct (KeycloakPluginOptions.autoInit options) as [[]|]; simpl;
    (split; [first [by intros _ | by intros []]|]);
    (split; [first [reflexivity | discriminate]|]);
    intros pending instance e st console Hpending;
    try discriminate Hpending;
    injection Hpending as <-; by simpl.
Qed.

(** C10, as stated, fails: [install] is not safe from every throw.  On a
    first install with an adapter whose constructor throws, [install]
    throws what the constructor threw, [init] is not called although
    [autoInit] is left out, and nothing is provided. *)
Lemma C10_constructor_throws_counterexample :
  completion (install_constructing Mock.constructorThrows Mock.pluginOptions
                                   App.empty None)
  = Js.Throw (Js.VError {| Js.message := "constructor failed" |})
  ∧ pendingInit (install_constructing Mock.constructorThrows
                                      Mock.pluginOptions App.empty None)
    = None
  ∧ useKeycloak
      (App.provides
         (Plugin.app (install_constructing Mock.constructorThrows
                                           Mock.pluginOptions App.empty None)))
    ≠ Js.Return Facade
  ∧ ¬ installReturnsAndInits
        (install_constructing Mock.constructorThrows Mock.pluginOptions
                              App.empty None)
        Mock.pluginOptions.
Proof.
  split; [reflexivity|]. split; [reflexivity|]. split; [discriminate|].
  intros [Hreturns _]. discriminate Hreturns.
Qed.

(** C10, amended.  When the store has its adapter object already or the
    adapter's constructor returns, [install] returns normally; unless
    [autoInit] is exactly [false] (left out included) it has called
    [init] with [initOptions], the adapter's [init] is awaited and the
    store is loading, and with [autoInit: false] no [init] is called;
    when the automatic [init] is rejected with [e], the promise that
    [.catch] leaves is resolved, the store's [error] is [e] as an
    [Error], and the console has one more line, with [e].  [install]
    throws exactly when there is no adapter object yet and the
    constructor throws: it throws that value, calls no [init], provides
    nothing and leaves the store without an adapter object. *)
Theorem C10_autoInit_failure_is_contained
    (constructed : Js.completion unit)
    (options : KeycloakPluginOptions.t) (app : App.t)
    (globalState : option KeycloakState.t) :
  let outcome := install_constructing constructed options app globalState in
  (is_Some (globalState ≫= KeycloakState.instance)
   ∨ constructed = Js.Return tt →
   completion outcome = Js.Return tt
   ∧ (KeycloakPluginOptions.autoInit options ≠ Some false →
      pendingInit outcome
      = Some (Awaits (AdapterInit
                        (default ∅ (KeycloakPluginOptions.initOptions
                                      options))))
      ∧ KeycloakState.isLoading (Plugin.globalState outcome) = true)
   ∧ (KeycloakPluginOptions.autoInit options = Some false →
      pendingInit outcome = None)
   ∧ (∀ pending instance e state console,
        pendingInit outcome = Some pending →
        let '(state', caught, console') :=
          settleInit pending instance (Js.Rejected e) state console in
        caught = Js.Resolved None
        ∧ KeycloakState.error state' = Some (Js.toError e)
        ∧ console'
          = (console
               ++ [ConsoleError "Failed to initialize Keycloak:" e])%list))
  ∧ (∀ v, completion outcome = Js.Throw v
          ↔ (globalState ≫= KeycloakState.instance) = None
            ∧ constructed = Js.Throw v)
  ∧ (∀ v, completion outcome = Js.Throw v →
          pendingInit outcome = None
          ∧ Plugin.app outcome = app
          ∧ KeycloakState.instance (Plugin.globalState outcome) = None).
Proof.
  intros outcome. subst outcome. split; [|split].
  - intros Hcan. rewrite (install_constructing_returns _ _ _ _ Hcan).
    split; [apply install_completion|].
    exact (install_autoInit options app globalState).
  - intros v.
    destruct (constructing_cases constructed globalState)
      as [Hcan|[Hnone [w ->]]].
    + rewrite (install_constructing_returns _ _ _ _ Hcan),
        install_completion.
      split; [discriminate|].
      intros [Hnone ->]. destruct Hcan as [[? Hsome]|[=]].
      rewrite Hnone in Hsome. discriminate Hsome.
    + rewrite (install_constructing_throws _ _ _ _ Hnone). simpl.
      split; [by intros [= ->]|by intros [_ [= ->]]].
  - intros v.
    destruct (constructing_cases constructed globalState)
      as [Hcan|[Hnone [w ->]]].
    + rewrite (install_constructing_returns _ _ _ _ Hcan),
        install_completion. discriminate.
    + rewrite (install_constructing_throws _ _ _ _ Hnone). simpl.
      intros _. split; [reflexivity|]. split; [reflexivity|].
      destruct globalState as [s|]; [exact Hnone|reflexivity].
Qed.
End PluginInstall.

Lemma C10_autoInit_witness :
  Plugin.completion
    (Plugin.install_constructing (Js.Return tt) Mock.pluginOptions
                                 App.empty None)
  = Js.Return tt
  ∧ Plugin.pendingInit
      (Plugin.install_constructing (Js.Return tt) Mock.pluginOptions
                                   App.empty None)
    = Some (Awaits (AdapterInit ∅))
  ∧ (Plugin.settleInit (Awaits (AdapterInit ∅)) Mock.loggedOut
       (Js.Rejected (Js.VString "boom"))
       (Plugin.globalState
          (Plugin.install_constructing (Js.Return tt) Mock.pluginOptions
                                       App.empty None)) []).1.2
    = Js.Resolved None.
Proof.
  pose proof (proj1 (C10_autoInit_failure_is_contained
                       (Js.Return tt) Mock.pluginOptions App.empty None)
                    (or_intror eq_refl))
    as (Hreturns & Hauto & _ & Hsettle).
  split; [exact Hreturns|]. split.
  - refine (proj1 (Hauto _)). discriminate.
  - specialize (Hsettle (Awaits (AdapterInit ∅)) Mock.loggedOut
                        (Js.VString "boom")
                        (Plugin.globalState
                           (Plugin.install_constructing
                              (Js.Return tt) Mock.pluginOptions
                              App.empty None))
                        [] eq_refl).
    destruct (Plugin.settleInit _ _ _ _ _) as [[state' caught] console'].
    exact (proj1 Hsettle).
Defined.

(** * Further properties of the composable, the getters and the plugin *)

(** ** What a sequence of actions keeps *)

Section Frames.
Import Composable.

(** The adapter object of the store is set once. *)
Lemma step_keeps_instance state a ref :
  KeycloakState.instance state = Some ref →
  KeycloakState.instance (step state a) = Some ref.
Proof.
  intros Href.
  destruct a as [event instance|config callbacks|options|instance r
                |minValidity|instance r| |r|instance|call];
    unfold_step; rewrite ?Href; simpl; repeat case_match; simpl; auto.
Qed.

Lemma run_keeps_instance actions : ∀ state ref,
  KeycloakState.instance state = Some ref →
  KeycloakState.instance (run state actions) = Some ref.
Proof.
  induction actions as [|a actions IH]; intros state ref Href.
  - exact Href.
  - simpl. apply IH. by apply step_keeps_instance.
Qed.

Lemma step_keeps_adapter state a :
  KeycloakState.adapter (step state a) = KeycloakState.adapter state.
Proof.
  destruct a as [event instance|config callbacks|options|instance r
                |minValidity|instance r| |r|instance|call];
    unfold_step; repeat case_match; simpl; auto.
Qed.

Lemma step_profile state a p :
  KeycloakState.profile (step state a) = Some p →
  KeycloakState.profile state = Some p
  ∨ a = LoadUserProfileSettles (Js.Resolved p).
Proof.
  destruct a as [event instance|config callbacks|options|instance r
                |minValidity|instance r| |r|instance|call];
    unfold_step; repeat case_match; simpl; intros Hprofile;
    try discriminate; auto.
  injection Hprofile as ->. by right.
Qed.

Lemma step_isLoading state a :
  KeycloakState.isLoading (step state a) = true →
  KeycloakState.isLoading state = true ∨ ∃ options, a = InitStarts options.
Proof.
  destruct a as [event instance|config callbacks|options|instance r
                |minValidity|instance r| |r|instance|call];
    unfold_step; repeat case_match; simpl; intros Hloading;
    try discriminate; eauto.
Qed.

(** X1.  Over every sequence of adapter events and facade operations in
    which each adapter snapshot that is read carries a token when it says
    [authenticated = true], a store that is not authenticated without a
    token stays so; the store of a facade just built is one. *)
Theorem X1_facade_keeps_authenticated_with_token
    (config : KeycloakConfig) (callbacks : option KeycloakCallbacks.t)
    (actions : list Action) :
  Forall action_has_token actions →
  authenticated_has_token (run (fresh config callbacks) actions)
  ∧ ∀ state, authenticated_has_token state →
             authenticated_has_token (run state actions).
Proof.
  intros Hall. split.
  - apply run_keeps_token_invariant; [exact Hall|].
    intros H; discriminate H.
  - intros state. by apply run_keeps_token_invariant.
Qed.

(** X2.  Syncing is last writer wins: after any sequence of syncs the
    store is what one sync from the last snapshot gives, so syncing twice
    from the same snapshot is syncing once, and the fields [updateState]
    does not write are those of the store it started from. *)
Theorem X2_sync_last_writer_wins
    (state : KeycloakState.t) (earlier : list KeycloakInstance.t)
    (last : KeycloakInstance.t) :
  fold_left updateState (earlier ++ [last]) state = updateState state last
  ∧ updateState (updateState state last) last = updateState state last
  ∧ run state (map (fun i => Fires AuthRefreshSuccess i) (earlier ++ [last]))
    = (fire AuthRefreshSuccess last state).1.
Proof.
  split; [|split].
  - revert state. induction earlier as [|i earlier IH]; intros state.
    + reflexivity.
    + simpl. by rewrite IH.
  - reflexivity.
  - revert state. induction earlier as [|i earlier IH]; intros state.
    + reflexivity.
    + simpl. rewrite IH. unfold step, fire.
      destruct (KeycloakState.instance state) eqn:Hinst; simpl;
        by rewrite Hinst.
Qed.

(** X3.  On a store that holds an adapter object, whatever events and
    operations follow, the store keeps that very object (built from the
    same config, with the same callbacks), and no operation ends with
    'Keycloak instance not initialized': each gets as far as its adapter
    call and [clearToken] returns.  The two role checks are then the
    adapter's own answers. *)
Theorem X3_built_facade_reaches_the_adapter
    (state : KeycloakState.t) (ref : InstanceRef.t) (actions : list Action) :
  KeycloakState.instance state = Some ref →
  let now := run state actions in
  KeycloakState.instance now = Some ref
  ∧ (∀ options, ∃ s, init_start options now
                     = (s, Awaits (AdapterInit (default ∅ options))))
  ∧ (∀ minValidity,
       updateToken_start minValidity now
       = (now, Awaits (AdapterUpdateToken
                         (default DEFAULT_MIN_VALIDITY minValidity))))
  ∧ loadUserProfile_start now = (now, Awaits AdapterLoadUserProfile)
  ∧ (∀ R call, delegate_start (R := R) call now = (now, Awaits call))
  ∧ (∀ instance, (clearToken instance now).2 = Js.Return tt)
  ∧ (∀ adapter role, Getters.hasRealmRole adapter now role = adapter role)
  ∧ (∀ adapter role resource,
       Getters.hasResourceRole adapter now role resource
       = adapter role resource).
Proof.
  intros Href now.
  assert (Hnow : KeycloakState.instance now = Some ref)
    by (by apply run_keeps_instance).
  unfold init_start, updateToken_start, loadUserProfile_start,
    delegate_start, clearToken, Getters.hasRealmRole,
    Getters.hasResourceRole.
  rewrite Hnow. repeat split; eauto.
Qed.

(** X4.  [initKeycloak] builds one store and one adapter object: a later
    call, whatever config and callbacks it is given, returns the store
    as it is, so the config and the callbacks of the first call stay in
    force and events go on being forwarded to the first caller's
    callbacks. *)
Theorem X4_initKeycloak_is_a_singleton
    (globalState : option KeycloakState.t)
    (config config' : KeycloakConfig)
    (callbacks callbacks' : option KeycloakCallbacks.t)
    (actions : list Action) :
  let first := (initKeycloak globalState config callbacks).1 in
  (initKeycloak (Some first) config' callbacks').1 = first
  ∧ (initKeycloak (Some (run first actions)) config' callbacks').1
    = run first actions
  ∧ (globalState = None →
     KeycloakState.instance (run first actions)
     = Some {| InstanceRef.config := config;
               InstanceRef.callbacks := callbacks |})
  ∧ (globalState = None →
     ∀ event instance,
       fire event instance
            (initKeycloak (Some (run first actions)) config' callbacks').1
       = handle callbacks event instance (run first actions)).
Proof.
  intros first.
  destruct (initKeycloak_has_instance globalState config callbacks)
    as [ref Href]. fold first in Href.
  assert (Hkeep : ∀ s, KeycloakState.instance s = Some ref →
                       (initKeycloak (Some s) config' callbacks').1 = s).
  { intros s Hs. unfold initKeycloak. simpl. by rewrite Hs. }
  assert (Hrun : KeycloakState.instance (run first actions) = Some ref)
    by (by apply run_keeps_instance).
  split; [by apply Hkeep|]. split; [by apply Hkeep|].
  split.
  - intros ->. by apply run_keeps_instance.
  - intros -> event instance. rewrite (Hkeep _ Hrun).
    unfold fire.
    by rewrite (run_keeps_instance actions first
                  {| InstanceRef.config := config;
                     InstanceRef.callbacks := callbacks |} eq_refl).
Qed.

(** X5.  What a handler writes to the store does not depend on the
    caller's callbacks.  A handler forwards to one callback at most, of
    its own event, and only when that callback was supplied; without a
    callbacks object nothing is forwarded. *)
Theorem X5_callbacks_do_not_touch_the_store
    (callbacks : option KeycloakCallbacks.t) (event : AdapterEvent)
    (instance : KeycloakInstance.t) (state : KeycloakState.t) :
  (handle callbacks event instance state).1
  = (handle None event instance state).1
  ∧ (handle None event instance state).2 = []
  ∧ (length (handle callbacks event instance state).2 ≤ 1)%nat
  ∧ ∀ call, call ∈ (handle callbacks event instance state).2 →
      ∃ given, callbacks = Some given
      ∧ match call, event with
        | CallOnReady a, Ready (Some a') =>
            a = a' ∧ KeycloakCallbacks.onReady given = true
        | CallOnAuthSuccess, AuthSuccess =>
            KeycloakCallbacks.onAuthSuccess given = true
        | CallOnAuthError e, AuthError (Some e') =>
            e = e' ∧ KeycloakCallbacks.onAuthError given = true
        | CallOnAuthRefreshSuccess, AuthRefreshSuccess =>
            KeycloakCallbacks.onAuthRefreshSuccess given = true
        | CallOnAuthRefreshError, AuthRefreshError =>
            KeycloakCallbacks.onAuthRefreshError given = true
        | CallOnAuthLogout, AuthLogout =>
            KeycloakCallbacks.onAuthLogout given = true
        | CallOnTokenExpired, TokenExpired =>
            KeycloakCallbacks.onTokenExpired given = true
        | _, _ => False
        end.
Proof.
  split; [by destruct event|].
  split; [by destruct event as [[]| |[]| | | |]|].
  split.
  - destruct event as [[]| |[]| | | |]; simpl; unfold forward;
      repeat case_match; simpl; lia.
  - intros call Hin.
    destruct callbacks as [given|];
      [|by destruct event as [[]| |[]| | | |]; apply elem_of_nil in Hin].
    exists given. split; [reflexivity|].
    destruct event as [[]| |[]| | | |]; simpl in Hin;
      unfold forward, provided in Hin;
      try (by apply elem_of_nil in Hin);
      match type of Hin with
      | context [if ?b then _ else _] => destruct b eqn:Hgiven
      end;
      try (by apply elem_of_nil in Hin);
      apply list_elem_of_singleton in Hin; subst call; simpl; auto.
Qed.

(** X6.  A profile in the store was put there by [loadUserProfile]: over
    any sequence of events and operations on a store without a profile,
    a profile found at the end is one the adapter's profile fetch
    resolved with.  [init], the token refresh and the events never
    produce one. *)
Theorem X6_profile_comes_from_loadUserProfile
    (state : KeycloakState.t) (actions : list Action)
    (profile : KeycloakProfile.t) :
  KeycloakState.profile state = None →
  KeycloakState.profile (run state actions) = Some profile →
  LoadUserProfileSettles (Js.Resolved profile) ∈ actions.
Proof.
  intros Hnone Hsome.
  assert (Hgen : ∀ acts s,
             KeycloakState.profile (run s acts) = Some profile →
             KeycloakState.profile s = Some profile
             ∨ LoadUserProfileSettles (Js.Resolved profile) ∈ acts).
  { induction acts as [|a acts IH]; intros s Hs.
    - by left.
    - simpl in Hs. destruct (IH _ Hs) as [Hstep|Hin].
      + destruct (step_profile _ _ _ Hstep) as [Hs'| ->].
        * by left.
        * right. apply list_elem_of_here.
      + right. by apply list_elem_of_further. }
  destruct (Hgen actions state Hsome) as [Hstate|Hin]; [congruence|exact Hin].
Qed.

(** X7.  The [adapter] field of the store is never written: after any
    sequence of events and operations it is what it was, and on a facade
    built by [initKeycloak] it is undefined for good. *)
Theorem X7_adapter_field_is_never_written
    (config : KeycloakConfig) (callbacks : option KeycloakCallbacks.t)
    (state : KeycloakState.t) (actions : list Action) :
  KeycloakState.adapter (run state actions) = KeycloakState.adapter state
  ∧ KeycloakState.adapter (run (fresh config callbacks) actions) = None.
Proof.
  assert (Hgen : ∀ acts s, KeycloakState.adapter (run s acts)
                           = KeycloakState.adapter s).
  { induction acts as [|a acts IH]; intros s; [reflexivity|].
    simpl. rewrite IH. apply step_keeps_adapter. }
  split; [apply Hgen|]. by rewrite Hgen.
Qed.

(** X9.  [isLoading] is raised by [init] alone: over any sequence of
    events and operations on a store that is not loading, a store found
    loading at the end had an [init] started.  A token refresh or a
    profile fetch in flight does not show in [isLoading]. *)
Theorem X9_isLoading_means_init_started
    (state : KeycloakState.t) (actions : list Action) :
  KeycloakState.isLoading state = false →
  KeycloakState.isLoading (run state actions) = true →
  ∃ options, InitStarts options ∈ actions.
Proof.
  intros Hnot Hloading.
  assert (Hgen : ∀ acts s,
             KeycloakState.isLoading (run s acts) = true →
             KeycloakState.isLoading s = true
             ∨ ∃ options, InitStarts options ∈ acts).
  { induction acts as [|a acts IH]; intros s Hs.
    - by left.
    - simpl in Hs. destruct (IH _ Hs) as [Hstep|[o Hin]].
      + destruct (step_isLoading _ _ Hstep) as [Hs'|[o ->]].
        * by left.
        * right. exists o. apply list_elem_of_here.
      + right. exists o. by apply list_elem_of_further. }
  destruct (Hgen actions state Hloading) as [Hstate|Hin];
    [congruence|exact Hin].
Qed.
End Frames.

(** ** The [error] field *)

Section Errors.
Import Composable.

Lemma step_keeps_error state a :
  writesError a = false →
  KeycloakState.error (step state a) = KeycloakState.error state.
Proof.
  destruct a as [event instance|config callbacks|options|instance r
                |minValidity|instance r| |r|instance|call];
    unfold_step; repeat case_match; simpl; intros Hw;
    try discriminate; auto.
Qed.

Lemma run_keeps_error actions : ∀ state,
  Forall (fun a => writesError a = false) actions →
  KeycloakState.error (run state actions) = KeycloakState.error state.
Proof.
  induction actions as [|a actions IH]; intros state Hall; [reflexivity|].
  inversion Hall; subst. simpl. rewrite IH; [|assumption].
  by apply step_keeps_error.
Qed.

(** X8.  The store's [error] is overwritten, not accumulated: after a
    sequence of events and operations that ends with the failure of an
    adapter call, [error] is the value of that last failure as an
    [Error], whatever was recorded before.  Only the start of [init]
    (which clears it), the adapter's auth-error event and a failed
    adapter call change [error] at all. *)
Theorem X8_error_is_the_last_failure
    (state : KeycloakState.t) (earlier : list Action) (a : Action) :
  (∀ v, rejection a = Some v →
        KeycloakState.error (run state (earlier ++ [a]))
        = Some (Js.toError v))
  ∧ (KeycloakState.error (step state a) ≠ KeycloakState.error state →
     writesError a = true)
  ∧ (∀ options, KeycloakState.error (step state (InitStarts options)) = None
                ∨ KeycloakState.instance state = None).
Proof.
  split; [|split].
  - intros v Hv. unfold run. rewrite fold_left_app. simpl.
    destruct a as [event instance|config callbacks|options|instance [b|w]
                  |minValidity|instance [b|w]| |[p|w]|instance|call];
      try discriminate Hv; injection Hv as ->; reflexivity.
  - intros Hchanged. destruct (writesError a) eqn:Hw; [reflexivity|].
    exfalso. apply Hchanged. by apply step_keeps_error.
  - intros options. unfold step, init_start.
    destruct (KeycloakState.instance state); [by left|by right].
Qed.

(** X10.  The auth-error handler always records an [Error] with a
    non-empty message: the event's [error_description] when that is
    non-empty, else its [error] when that is non-empty, else
    'Authentication error', also when the event carries nothing.  It
    ends the loading state and leaves the rest of the store alone. *)
Theorem X10_auth_error_message
    (callbacks : option KeycloakCallbacks.t)
    (error : option KeycloakError.t) (state : KeycloakState.t) :
  let state' := (onAuthError callbacks error state).1 in
  authErrorMessage error ≠ ""
  ∧ KeycloakState.error state'
    = Some {| Js.message := authErrorMessage error |}
  ∧ KeycloakState.isLoading state' = false
  ∧ (∀ e, error = Some e → KeycloakError.error_description e ≠ "" →
          authErrorMessage error = KeycloakError.error_description e)
  ∧ (∀ e, error = Some e → KeycloakError.error_description e = "" →
          KeycloakError.error e ≠ "" →
          authErrorMessage error = KeycloakError.error e)
  ∧ (error = None
     ∨ (∃ e, error = Some e ∧ KeycloakError.error_description e = ""
             ∧ KeycloakError.error e = "") →
     authErrorMessage error = "Authentication error")
  ∧ KeycloakState.isAuthenticated state'
    = KeycloakState.isAuthenticated state
  ∧ tokenFields state' = tokenFields state
  ∧ KeycloakState.profile state' = KeycloakState.profile state
  ∧ KeycloakState.isReady state' = KeycloakState.isReady state.
Proof.
  simpl.
  assert (Hcases :
            ∀ e, error = Some e →
                 (KeycloakError.error_description e ≠ ""
                  ∧ authErrorMessage error = KeycloakError.error_description e)
                 ∨ (KeycloakError.error_description e = ""
                    ∧ KeycloakError.error e ≠ ""
                    ∧ authErrorMessage error = KeycloakError.error e)
                 ∨ (KeycloakError.error_description e = ""
                    ∧ KeycloakError.error e = ""
                    ∧ authErrorMessage error = "Authentication error")).
  { intros [err desc] ->. unfold authErrorMessage. simpl.
    destruct (String.eqb_spec desc "") as [->|Hdesc].
    - destruct (String.eqb_spec err "") as [->|Herr].
      + right. right. by repeat split.
      + right. left. repeat split; [done|].
        unfold Js.or at 2. simpl.
        by rewrite (or_truthy _ _ err eq_refl Herr).
    - left. split; [done|].
      rewrite (or_truthy (Some desc) _ desc eq_refl Hdesc).
      by rewrite (or_truthy (Some desc) _ desc eq_refl Hdesc). }
  split.
  { destruct error as [e|]; [|discriminate].
    destruct (Hcases e eq_refl) as [[H1 ->]|[(_ & H2 & ->)|(_ & _ & ->)]];
      done. }
  split; [reflexivity|]. split; [reflexivity|].
  split.
  { intros e He Hdesc.
    destruct (Hcases e He) as [[_ H]|[(H & _)|(H & _)]]; done. }
  split.
  { intros e He Hdesc Herr.
    destruct (Hcases e He) as [[H _]|[(_ & _ & H)|(_ & H & _)]]; done. }
  split.
  { intros [->|(e & He & Hdesc & Herr)]; [reflexivity|].
    destruct (Hcases e He) as [[H _]|[(_ & H & _)|(_ & _ & H)]]; done. }
  repeat split.
Qed.
End Errors.

(** ** Names and roles *)

Section MoreGetters.
Import Composable.

(** X12.  When the profile has a non-empty first and a non-empty last
    name, [fullName] is the two joined by one blank, whatever [name] the
    token claims, and [firstName] and [lastName] are its two parts.  As
    soon as one of the two is missing or empty, [fullName] is the token's
    [name] claim (or absent), even when the profile has the other. *)
Theorem X12_fullName_agrees_with_its_parts
    (state : KeycloakState.t) :
  let first := KeycloakState.profile state ≫= KeycloakProfile.firstName in
  let last := KeycloakState.profile state ≫= KeycloakProfile.lastName in
  (∀ f l, first = Some f → last = Some l → f ≠ "" → l ≠ "" →
          Getters.fullName state = Some (f +:+ " " +:+ l)
          ∧ Getters.firstName state = Some f
          ∧ Getters.lastName state = Some l)
  ∧ (Js.truthy first && Js.truthy last = false →
     Getters.fullName state
     = KeycloakState.tokenParsed state ≫= KeycloakTokenParsed.name).
Proof.
  intros first last. unfold Getters.fullName, Getters.firstName,
    Getters.lastName. fold first last. split.
  - intros f l -> -> Hf Hl.
    rewrite (or_truthy _ _ f eq_refl Hf), (or_truthy _ _ l eq_refl Hl).
    simpl.
    destruct (String.eqb_spec f ""); [contradiction|].
    by destruct (String.eqb_spec l "").
  - by intros ->.
Qed.

(** X13.  The logout, refresh-error, auth-error and token-expired
    events leave what was synced from the adapter in place: after any of
    them the role lists and the token fields are the ones from before
    and [isTokenExpired] answers as before; only the next sync replaces
    them. *)
Theorem X13_events_leave_roles_stale
    (callbacks : option KeycloakCallbacks.t) (instance : KeycloakInstance.t)
    (event : AdapterEvent) (state : KeycloakState.t) :
  event = AuthLogout ∨ event = AuthRefreshError ∨ event = TokenExpired
  ∨ (∃ e, event = AuthError e) →
  let state' := (handle callbacks event instance state).1 in
  Getters.realmRoles state' = Getters.realmRoles state
  ∧ (∀ resource, Getters.resourceRoles state' resource
                 = Getters.resourceRoles state resource)
  ∧ (∀ expired, Getters.isTokenExpired expired state'
                = Getters.isTokenExpired expired state)
  ∧ tokenFields state' = tokenFields state.
Proof.
  intros [->|[->|[->|[e ->]]]]; simpl; repeat split.
Qed.

(** X14.  [clearToken] on a facade with an adapter object whose tokens
    are gone: the store is not authenticated and has no token,
    [isTokenExpired] is true whatever the adapter would answer, and the
    profile stays, so that [username] and [email] are now the
    profile's. *)
Theorem X14_clearToken_keeps_the_profile
    (state : KeycloakState.t) (ref : InstanceRef.t)
    (instance : KeycloakInstance.t) (expired : Z -> bool) :
  KeycloakState.instance state = Some ref →
  KeycloakInstance.authenticated instance ≠ Some true →
  KeycloakInstance.token instance = None →
  KeycloakInstance.tokenParsed instance = None →
  let state' := (clearToken instance state).1 in
  KeycloakState.isAuthenticated state' = false
  ∧ KeycloakState.token state' = None
  ∧ Getters.isTokenExpired expired state' = true
  ∧ KeycloakState.profile state' = KeycloakState.profile state
  ∧ Getters.username state'
    = KeycloakState.profile state ≫= KeycloakProfile.username
  ∧ Getters.email state'
    = KeycloakState.profile state ≫= KeycloakProfile.email.
Proof.
  intros Href Hauth Htoken Hparsed. unfold clearToken. rewrite Href. simpl.
  unfold Getters.isTokenExpired, Getters.username, Getters.email. simpl.
  rewrite Htoken, Hparsed, Href. simpl.
  repeat split.
  by destruct (KeycloakInstance.authenticated instance) as [[]|].
Qed.
End MoreGetters.

(** ** Operations, continued *)

Section MoreOperations.
Import Composable.

(** X11.  An [init] on a facade with an adapter object, during which the
    adapter announces that it is ready and whose promise then resolves:
    the store ends ready, not loading, without an error and synced from
    the adapter, whatever it held before (an earlier error included). *)
Theorem X11_init_with_ready_event
    (state : KeycloakState.t) (ref : InstanceRef.t)
    (options : option Options) (announced : option bool)
    (instance : KeycloakInstance.t) (authenticated : bool) :
  KeycloakState.instance state = Some ref →
  let (final, result) :=
    init options [Fires (Ready announced) instance] instance
         (Js.Resolved authenticated) state in
  result = Js.Resolved authenticated
  ∧ KeycloakState.isReady final = true
  ∧ KeycloakState.isLoading final = false
  ∧ KeycloakState.error final = None
  ∧ synced final instance
  ∧ KeycloakState.profile final = KeycloakState.profile state.
Proof.
  intros Href. unfold init, whole, init_start. rewrite Href. simpl.
  unfold fire. simpl. rewrite Href. simpl.
  split; [reflexivity|]. split; [reflexivity|]. split; [reflexivity|].
  split; [reflexivity|]. split; [|reflexivity].
  apply synced_set_isLoading, updateState_synced.
Qed.

(** X19.  A successful [init] leaves no earlier error behind: on a facade
    with an adapter object, when nothing that writes [error] happens
    while the adapter works, the store's [error] is null after [init]
    resolved, whatever it was before. *)
Theorem X19_successful_init_clears_the_error
    (state : KeycloakState.t) (ref : InstanceRef.t)
    (options : option Options) (during : list Action)
    (instance : KeycloakInstance.t) (authenticated : bool) :
  KeycloakState.instance state = Some ref →
  Forall (fun a => writesError a = false) during →
  KeycloakState.error
    (init options during instance (Js.Resolved authenticated) state).1
  = None.
Proof.
  intros Href Hquiet. unfold init, whole, init_start. rewrite Href. simpl.
  by rewrite run_keeps_error.
Qed.

(** X20.  The operations that only hand over to the adapter never write
    to the store, whatever the adapter answers.  [accountManagement]
    drops its options: the adapter is called without any, whereas
    [createAccountUrl] hands its options on. *)
Theorem X20_accountManagement_drops_its_options
    (state : KeycloakState.t) (options options' : option Options) :
  accountManagement_start options state
  = accountManagement_start options' state
  ∧ (∀ ref, KeycloakState.instance state = Some ref →
            accountManagement_start options state
            = (state, Awaits AdapterAccountManagement)
            ∧ createAccountUrl_start options state
              = (state, Awaits (AdapterCreateAccountUrl options)))
  ∧ (∀ R call (r : Js.settled R),
       (delegate_start (R := R) call state).1 = state
       ∧ delegate_resume r state = (state, r)).
Proof.
  split; [reflexivity|]. split.
  - intros ref Href.
    unfold accountManagement_start, createAccountUrl_start, delegate_start.
    by rewrite Href.
  - intros R call r. unfold delegate_start.
    by destruct (KeycloakState.instance state).
Qed.
End MoreOperations.

(** ** The plugin, continued *)

Section MorePlugin.
Import Composable Plugin.

Lemma init_start_keeps_instance options state :
  KeycloakState.instance (init_start options state).1
  = KeycloakState.instance state.
Proof.
  unfold init_start. by destruct (KeycloakState.instance state) eqn:H.
Qed.

Lemma install_globalState options app globalState :
  Plugin.globalState (install options app globalState)
  = let built :=
      (initKeycloak globalState (KeycloakPluginOptions.config options)
                    (KeycloakPluginOptions.callbacks options)).1 in
    if autoInitRequested (KeycloakPluginOptions.autoInit options)
    then (init_start (KeycloakPluginOptions.initOptions options) built).1
    else built.
Proof.
  unfold install.
  destruct (initKeycloak _ _ _) as [state keycloak]. simpl.
  destruct (autoInitRequested _); [|reflexivity].
  by destruct (init_start _ state).
Qed.

(** X15.  [install] provides the facade under the plugin's key and as
    [$keycloak], and leaves everything else the application provides or
    has among its global properties as it was. *)
Theorem X15_install_leaves_other_entries
    (options : KeycloakPluginOptions.t) (app : App.t)
    (globalState : option KeycloakState.t) :
  let app' := Plugin.app (install options app globalState) in
  App.provides app' !! KEYCLOAK_INJECTION_KEY = Some Facade
  ∧ App.globalProperties app' !! "$keycloak" = Some Facade
  ∧ (∀ key, key ≠ KEYCLOAK_INJECTION_KEY →
            App.provides app' !! key = App.provides app !! key)
  ∧ (∀ name, name ≠ "$keycloak" →
             App.globalProperties app' !! name
             = App.globalProperties app !! name).
Proof.
  unfold install.
  destruct (initKeycloak _ _ _) as [state []].
  destruct (autoInitRequested _); [destruct (init_start _ state)|]; simpl;
    (split; [apply lookup_insert_eq|]);
    (split; [apply lookup_insert_eq|]);
    (split; intros k Hk; by apply lookup_insert_ne).
Qed.

(** X16.  [install] never makes the facade ready, and writes nothing into
    the store but what [initKeycloak] and the start of [init] write:
    with [autoInit: false] the store is the one [initKeycloak] leaves
    (on a first install: not ready, not loading, no error, no token),
    otherwise it differs from it in [isLoading] and [error] alone. *)
Theorem X16_install_leaves_the_store_unready
    (options : KeycloakPluginOptions.t) (app : App.t)
    (globalState : option KeycloakState.t) :
  let built :=
    (initKeycloak globalState (KeycloakPluginOptions.config options)
                  (KeycloakPluginOptions.callbacks options)).1 in
  let after := Plugin.globalState (install options app globalState) in
  (KeycloakPluginOptions.autoInit options = Some false → after = built)
  ∧ KeycloakState.isReady after
    = match globalState with
      | Some s => KeycloakState.isReady s
      | None => false
      end
  ∧ KeycloakState.isAuthenticated after = KeycloakState.isAuthenticated built
  ∧ tokenFields after = tokenFields built
  ∧ KeycloakState.profile after = KeycloakState.profile built
  ∧ KeycloakState.instance after = KeycloakState.instance built.
Proof.
  intros built after. subst after. rewrite install_globalState. fold built.
  assert (Hready : KeycloakState.isReady built
                   = match globalState with
                     | Some s => KeycloakState.isReady s
                     | None => false
                     end).
  { subst built. unfold initKeycloak.
    destruct globalState as [s|]; simpl; [|reflexivity].
    by destruct (KeycloakState.instance s). }
  split; [by intros ->|].
  destruct (autoInitRequested _); simpl; [|by repeat split].
  unfold init_start.
  destruct (KeycloakState.instance built) eqn:Hinst; simpl;
    rewrite ?Hinst; by repeat split.
Qed.

(** X17.  When the automatic [init] of the plugin succeeds nothing is
    written to the console; and however it ends, the promise the plugin
    is left with is resolved, never rejected. *)
Theorem X17_autoInit_success_is_silent
    (pending : started bool) (instance : KeycloakInstance.t)
    (r : Js.settled bool) (state : KeycloakState.t)
    (console : list ConsoleLine) :
  let '(state', caught, console') :=
    settleInit pending instance r state console in
  (∃ value, caught = Js.Resolved value)
  ∧ (∀ call authenticated,
       pending = Awaits call → r = Js.Resolved authenticated →
       caught = Js.Resolved (Some authenticated)
       ∧ console' = console
       ∧ synced state' instance
       ∧ KeycloakState.isLoading state' = false).
Proof.
  unfold settleInit.
  destruct pending as [call|[b|v]]; [destruct r as [b|v]| |]; simpl;
    (split; [eauto|]); intros c a Hp Hr; try discriminate;
    injection Hr as ->.
  split; [reflexivity|]. split; [reflexivity|]. split; [|reflexivity].
  apply synced_set_isLoading, updateState_synced.
Qed.

(** X18.  Installing the plugin again, into another application and with
    other options, builds no second store and no second adapter object:
    the store goes on holding the adapter object of the first install,
    with its config and its callbacks. *)
Theorem X18_second_install_reuses_the_store
    (first second : KeycloakPluginOptions.t) (app app' : App.t)
    (between : list Action) :
  let store := Plugin.globalState (install first app None) in
  let store' :=
    Plugin.globalState (install second app' (Some (run store between))) in
  KeycloakState.instance store'
  = Some {| InstanceRef.config := KeycloakPluginOptions.config first;
            InstanceRef.callbacks := KeycloakPluginOptions.callbacks first |}
  ∧ KeycloakState.isReady store'
    = KeycloakState.isReady (run store between)
  ∧ tokenFields store' = tokenFields (run store between)
  ∧ KeycloakState.profile store'
    = KeycloakState.profile (run store between).
Proof.
  intros store store'.
  assert (Hstore : KeycloakState.instance store
                   = Some {| InstanceRef.config :=
                               KeycloakPluginOptions.config first;
                             InstanceRef.callbacks :=
                               KeycloakPluginOptions.callbacks first |}).
  { subst store. rewrite install_globalState. cbv zeta.
    destruct (autoInitRequested _); [|reflexivity].
    by rewrite init_start_keeps_instance. }
  pose proof (run_keeps_instance between _ _ Hstore) as Hrun.
  assert (Hbuilt : (initKeycloak (Some (run store between))
                      (KeycloakPluginOptions.config second)
                      (KeycloakPluginOptions.callbacks second)).1
                   = run store between).
  { unfold initKeycloak. simpl. by rewrite Hrun. }
  subst store'. rewrite install_globalState. cbv zeta. rewrite Hbuilt.
  destruct (autoInitRequested _); [|by repeat split].
  unfold init_start. rewrite Hrun. simpl. by repeat split.
Qed.
End MorePlugin.

(** ** The store as a mirror of the adapter *)

Section Mirror.
Import Composable.

Lemma step_mirror state a ref :
  KeycloakState.instance state = Some ref →
  match syncsFrom a with
  | Some instance =>
      mirrored (step state a) = mirrorOf instance
      ∧ KeycloakState.isAuthenticated (step state a)
        = bool_decide (KeycloakInstance.authenticated instance = Some true)
  | None =>
      mirrored (step state a) = mirrored state
      ∧ (KeycloakState.isAuthenticated (step state a) = true →
         KeycloakState.isAuthenticated state = true)
  end.
Proof.
  intros Href.
  destruct a as [[au| |e| | | |] instance|config callbacks|options
                |instance [b|v]|minValidity|instance [[]|v]| |[p|v]
                |instance|call];
    unfold_step; rewrite ?Href; simpl; rewrite ?Href; simpl;
    try (split; [reflexivity|]);
    try (by destruct (KeycloakInstance.authenticated instance) as [[]|]);
    try (intros Hauth; first [discriminate Hauth | exact Hauth]).
Qed.

Lemma run_mirror start ref actions : ∀ state before,
  KeycloakState.instance state = Some ref →
  match before with
  | Some instance =>
      mirrored state = mirrorOf instance
      ∧ (KeycloakState.isAuthenticated state = true →
         KeycloakInstance.authenticated instance = Some true)
  | None =>
      mirrored state = mirrored start
      ∧ (KeycloakState.isAuthenticated state = true →
         KeycloakState.isAuthenticated start = true)
  end →
  match lastSyncAfter before actions with
  | Some instance =>
      mirrored (run state actions) = mirrorOf instance
      ∧ (KeycloakState.isAuthenticated (run state actions) = true →
         KeycloakInstance.authenticated instance = Some true)
  | None =>
      mirrored (run state actions) = mirrored start
      ∧ (KeycloakState.isAuthenticated (run state actions) = true →
         KeycloakState.isAuthenticated start = true)
  end.
Proof.
  induction actions as [|a actions IH]; intros state before Href Hbefore.
  - exact Hbefore.
  - change (lastSyncAfter before (a :: actions))
      with (lastSyncAfter
              (match syncsFrom a with
               | Some instance => Some instance
               | None => before
               end) actions).
    change (run state (a :: actions)) with (run (step state a) actions).
    apply IH; [by apply step_keeps_instance|].
    pose proof (step_mirror state a ref Href) as Hstep.
    destruct (syncsFrom a) as [instance|].
    + destruct Hstep as [Hm Hflag]. split; [exact Hm|].
      rewrite Hflag. intros Hb. by apply bool_decide_eq_true in Hb.
    + destruct Hstep as [Hm Hflag].
      destruct before as [instance|]; destruct Hbefore as [Hb1 Hb2];
        (split; [congruence|]); intros H; apply Hb2, Hflag, H.
Qed.

(** X22.  On a facade with an adapter object the token fields, the
    subject, the role sets and the protocol fields of the store are a
    copy of one adapter snapshot at any time: the one of the last sync
    among the events and operations so far (the ready, auth-success and
    refresh-success events, a resolved [init], a refresh that rotated,
    [clearToken]), and they are untouched while no sync has happened. *)
Theorem X22_store_mirrors_the_last_sync
    (state : KeycloakState.t) (ref : InstanceRef.t) (actions : list Action) :
  KeycloakState.instance state = Some ref →
  mirrored (run state actions)
  = match lastSync actions with
    | Some instance => mirrorOf instance
    | None => mirrored state
    end.
Proof.
  intros Href.
  pose proof (run_mirror state ref actions state None Href
                (conj eq_refl (fun H => H))) as H.
  unfold lastSync. by destruct (lastSyncAfter None actions); destruct H.
Qed.

(** X21.  On a facade with an adapter object, a store that is
    authenticated got it from the adapter: when the store starts out not
    authenticated and is authenticated after some events and operations,
    there was a sync among them and the snapshot of the last one says
    [authenticated = true].  Events after that sync can only have taken
    the flag away. *)
Theorem X21_authenticated_comes_from_the_last_sync
    (state : KeycloakState.t) (ref : InstanceRef.t) (actions : list Action) :
  KeycloakState.instance state = Some ref →
  KeycloakState.isAuthenticated state = false →
  KeycloakState.isAuthenticated (run state actions) = true →
  ∃ instance, lastSync actions = Some instance
              ∧ KeycloakInstance.authenticated instance = Some true
              ∧ KeycloakState.token (run state actions)
                = KeycloakInstance.token instance.
Proof.
  intros Href Hnot Hauth.
  pose proof (run_mirror state ref actions state None Href
                (conj eq_refl (fun H => H))) as H.
  unfold lastSync.
  destruct (lastSyncAfter None actions) as [instance|].
  - destruct H as [Hm Hflag]. exists instance.
    split; [reflexivity|]. split; [by apply Hflag|].
    unfold mirrored, mirrorOf, tokenFields in Hm. by injection Hm.
  - destruct H as [_ Hflag]. rewrite (Hflag Hauth) in Hnot. discriminate.
Qed.
End Mirror.

(** ** The properties above at sample data *)

Lemma X1_facade_token_witness :
  authenticated_has_token (run Mock.built Sample.loginThenLogout).
Proof.
  refine (proj1 (X1_facade_keeps_authenticated_with_token
                   Mock.mockConfig None Sample.loginThenLogout _)).
  repeat constructor; intros H; simpl; eauto; discriminate H.
Defined.

Lemma X3_built_facade_witness :
  KeycloakState.instance (run Mock.built Sample.loginThenLogout)
  = Some Mock.builtRef.
Proof.
  refine (proj1 (X3_built_facade_reaches_the_adapter
                   Mock.built Mock.builtRef Sample.loginThenLogout _)).
  reflexivity.
Defined.

Lemma X6_profile_witness :
  LoadUserProfileSettles
    (Js.Resolved (Mock.profileOf "testuser" (Some "Test")))
  ∈ Sample.testuserActions.
Proof.
  refine (X6_profile_comes_from_loadUserProfile
            Mock.built Sample.testuserActions
            (Mock.profileOf "testuser" (Some "Test")) _ _);
    reflexivity.
Defined.

Lemma X9_isLoading_witness :
  ∃ options, InitStarts options ∈ [UpdateTokenStarts None; InitStarts None].
Proof.
  refine (X9_isLoading_means_init_started
            Mock.built [UpdateTokenStarts None; InitStarts None] _ _);
    reflexivity.
Defined.

Lemma X11_init_with_ready_witness :
  KeycloakState.isReady
    (init None [Mock.readyLoggedOut] Mock.loggedOut (Js.Resolved false)
          Sample.failedRefresh).1
  = true
  ∧ KeycloakState.error
      (init None [Mock.readyLoggedOut] Mock.loggedOut (Js.Resolved false)
            Sample.failedRefresh).1
    = None.
Proof.
  pose proof (X11_init_with_ready_event
                Sample.failedRefresh Mock.builtRef None (Some false)
                Mock.loggedOut false eq_refl) as H.
  change (Fires (Ready (Some false)) Mock.loggedOut)
    with Mock.readyLoggedOut in H.
  destruct (init None [Mock.readyLoggedOut] Mock.loggedOut
                 (Js.Resolved false) Sample.failedRefresh)
    as [final result].
  destruct H as (_ & Hready & _ & Herror & _). by split.
Defined.

Lemma X12_fullName_witness :
  Getters.fullName Sample.adaLovelace = Some "Ada Lovelace"
  ∧ Getters.firstName Sample.adaLovelace = Some "Ada"
  ∧ Getters.lastName Sample.adaLovelace = Some "Lovelace".
Proof.
  refine (proj1 (X12_fullName_agrees_with_its_parts Sample.adaLovelace)
                "Ada" "Lovelace" _ _ _ _);
    first [reflexivity | discriminate].
Defined.

Lemma X13_stale_roles_witness :
  Getters.realmRoles (Composable.fire AuthLogout Mock.loggedOut
                                      Mock.testuser).1
  = ["user"; "admin"].
Proof.
  refine (eq_trans
            (proj1 (X13_events_leave_roles_stale
                      None Mock.loggedOut AuthLogout Mock.testuser _))
            _).
  - by left.
  - reflexivity.
Defined.

Lemma X14_clearToken_witness :
  Getters.username (Composable.clearToken Mock.loggedOut Mock.testuser).1
  = Some "testuser"
  ∧ KeycloakState.token
      (Composable.clearToken Mock.loggedOut Mock.testuser).1
    = None.
Proof.
  pose proof (X14_clearToken_keeps_the_profile
                Mock.testuser Mock.builtRef Mock.loggedOut (fun _ => false)
                eq_refl) as H.
  destruct H as (_ & Htoken & _ & _ & Husername & _);
    [discriminate|reflexivity|reflexivity|].
  split; [|exact Htoken].
  rewrite Husername. reflexivity.
Defined.

Lemma X19_init_clears_error_witness :
  KeycloakState.error Sample.failedRefresh
  = Some {| Js.message := "[object Object]" |}
  ∧ KeycloakState.error
      (init None [Mock.readyLoggedOut] Mock.loggedOut (Js.Resolved false)
            Sample.failedRefresh).1
    = None.
Proof.
  split; [reflexivity|].
  refine (X19_successful_init_clears_the_error
            Sample.failedRefresh Mock.builtRef None [Mock.readyLoggedOut]
            Mock.loggedOut false _ _).
  - reflexivity.
  - repeat constructor.
Defined.

Lemma X21_authenticated_witness :
  ∃ instance, lastSync Sample.testuserActions = Some instance
              ∧ KeycloakInstance.authenticated instance = Some true
              ∧ KeycloakState.token (run Mock.built Sample.testuserActions)
                = KeycloakInstance.token instance.
Proof.
  refine (X21_authenticated_comes_from_the_last_sync
            Mock.built Mock.builtRef Sample.testuserActions _ _ _);
    reflexivity.
Defined.

Lemma X22_mirror_witness :
  mirrored (run Mock.built Sample.loginThenLogout)
  = mirrorOf Mock.loggedOut.
Proof.
  refine (X22_store_mirrors_the_last_sync
            Mock.built Mock.builtRef Sample.loginThenLogout _).
  reflexivity.
Defined.
